(** * EQ assessment model: a shallow embedding of [assessment/eq_model.py]

    The class [AdvancedEQAssessmentModel] is embedded method by method.
    Conventions of the embedding:

    - a Python [str] is a [string], one character per code point; the
      code points covered are those below 256;
    - a Python [float] is the rational number it denotes ([Q], exact
      arithmetic); the special values (nan, inf) and rounding are outside the
      model, and equalities between computed scores are stated with [==];
      what depends on the order of floating-point additions is therefore not
      stated;
    - a Python [int] is a [Z];
    - a Python [dict] is an association list in insertion order, without
      duplicate keys: assigning to a present key keeps its position;
    - a call that may raise returns an [outcome];
    - [print] is not modelled. *)

From Stdlib Require Import ZArith QArith Lqa Lia Bool List.
From Stdlib Require Import Permutation Sorted.
From Stdlib Require Import Ascii String DecimalString DecimalZ.
Import ListNotations.

Local Open Scope string_scope.
Local Open Scope Z_scope.

(** ** Text primitives *)

Module Text.

Definition code (c : ascii) : Z := Z.of_N (N_of_ascii c).

Definition between (lo hi x : Z) : bool := (lo <=? x) && (x <=? hi).

(** [str.isspace] on one character: TAB..CR, FS..US, SPACE, NEL, NBSP. *)
Definition is_space (c : ascii) : bool :=
  let n := code c in
  between 9 13 n || between 28 32 n || (n =? 133) || (n =? 160).

(** Upper-case letters: A..Z and the accented capitals (the multiplication
    sign at 215 is not a letter). *)
Definition is_upper (c : ascii) : bool :=
  let n := code c in
  between 65 90 n || (between 192 222 n && negb (n =? 215)).

(** Lower-case letters with an upper-case partner below 256: a..z and the
    accented small letters (the division sign at 247 is not a letter). *)
Definition is_lower (c : ascii) : bool :=
  let n := code c in
  between 97 122 n || (between 224 254 n && negb (n =? 247)).

Definition shift (d : Z) (c : ascii) : ascii :=
  ascii_of_N (Z.to_N (code c + d)).

Definition lower_char (c : ascii) : ascii :=
  if is_upper c then shift 32 c else c.

(** The three characters whose upper case leaves the covered range (the
    micro sign, the sharp s and y with diaeresis) are kept as they are:
    neither they nor their images occur in any label the model compares
    with. *)
Definition upper_char (c : ascii) : ascii :=
  if is_lower c then shift (-32) c else c.

Fixpoint map_chars (f : ascii -> ascii) (s : string) : string :=
  match s with
  | EmptyString => EmptyString
  | String c s' => String (f c) (map_chars f s')
  end.

(** [s.lower()] and [s.upper()] *)
Definition lower : string -> string := map_chars lower_char.
Definition upper : string -> string := map_chars upper_char.

(** Truth value of a string: [bool(s)] *)
Definition truthy (s : string) : bool :=
  match s with EmptyString => false | String _ _ => true end.

(** [needle in hay] *)
Fixpoint contains (needle hay : string) : bool :=
  if prefix needle hay then true
  else match hay with
       | EmptyString => false
       | String _ rest => contains needle rest
       end.

Fixpoint lstrip (s : string) : string :=
  match s with
  | EmptyString => EmptyString
  | String c s' => if is_space c then lstrip s' else s
  end.

Fixpoint rstrip (s : string) : string :=
  match s with
  | EmptyString => EmptyString
  | String c s' =>
      let r := rstrip s' in
      if is_space c && negb (truthy r) then EmptyString else String c r
  end.

(** [s.strip()] *)
Definition strip (s : string) : string := rstrip (lstrip s).

Definition flush (word : string) : list string :=
  if truthy word then [word] else [].

Fixpoint split_from (word s : string) : list string :=
  match s with
  | EmptyString => flush word
  | String c s' =>
      if is_space c then flush word ++ split_from EmptyString s'
      else split_from (word ++ String c EmptyString) s'
  end.

(** [s.split()]: the maximal runs of non-space characters *)
Definition split (s : string) : list string := split_from EmptyString s.

(** [str(n)] for an integer *)
Definition of_int (z : Z) : string := NilZero.string_of_int (Z.to_int z).

End Text.

(** ** Python values exchanged with the classifiers *)

#[local] Set Warnings "-register-all".

Inductive pyval : Type :=
| PNone
| PBool (b : bool)
| PInt (z : Z)
| PFloat (q : Q)
| PStr (s : string)
| PList (items : list pyval)
| PTuple (items : list pyval)
| PDict (entries : list (string * pyval)).

(** The exceptions (subclasses of [Exception]) a call can end with. *)
Inductive pyexn : Type :=
| AttributeError
| TypeError
| ValueError
| OverflowError
| OtherException (name : string).

Inductive outcome (A : Type) : Type :=
| Returns (a : A)
| Raises (e : pyexn).

Arguments Returns {A} a.
Arguments Raises {A} e.

Definition bind {A B : Type} (m : outcome A) (k : A -> outcome B) : outcome B :=
  match m with
  | Returns a => k a
  | Raises e => Raises e
  end.

Notation "x <- m ;; k" := (bind m (fun x => k))
  (at level 61, m at next level, right associativity).

(** [try: m except Exception: handler] *)
Definition try_except {A : Type} (m : outcome A) (handler : pyexn -> outcome A)
  : outcome A :=
  match m with
  | Returns a => Returns a
  | Raises e => handler e
  end.

(** ** Dictionaries *)

Module Dict.

Section WithValue.
Context {V : Type}.

Definition t := list (string * V).

(** [d.get(k)] *)
Fixpoint get (k : string) (d : t) : option V :=
  match d with
  | [] => None
  | (k', v) :: rest => if String.eqb k k' then Some v else get k rest
  end.

(** [d.get(k, dflt)] *)
Definition get_default (k : string) (dflt : V) (d : t) : V :=
  match get k d with Some v => v | None => dflt end.

(** [k in d] *)
Definition mem (k : string) (d : t) : bool :=
  match get k d with Some _ => true | None => false end.

(** [d[k] = v] *)
Fixpoint set (k : string) (v : V) (d : t) : t :=
  match d with
  | [] => [(k, v)]
  | (k', v') :: rest =>
      if String.eqb k k' then (k', v) :: rest else (k', v') :: set k v rest
  end.

Definition keys (d : t) : list string := map fst d.
Definition values (d : t) : list V := map snd d.

(** [bool(d)] *)
Definition truthy (d : t) : bool :=
  match d with [] => false | _ :: _ => true end.

End WithValue.

Arguments t V : clear implicits.

End Dict.

(** ** The model object *)

(** The attributes of [self] set by [__init__].  The two pipelines are the
    external classifiers: a call returns a value or raises. *)
Record AdvancedEQAssessmentModel : Type := {
  sentiment_pipeline : string -> outcome pyval;
  emotion_pipeline : string -> outcome pyval;
  eq_categories : list string;
  min_words_per_response : Z
}.

(** ** Scenario generation *)

Definition teacher_scenario : string :=
  "You are in the middle of teaching an important lesson when a student " ++
  "suddenly starts loudly criticizing your teaching method in front of the entire class, " ++
  "accusing you of being unfair and biased. Several other students begin nodding in " ++
  "agreement, and the atmosphere becomes tense and uncomfortable. You have 10 minutes " ++
  "left in the class and an important topic to cover before the upcoming exam.".

Definition healthcare_scenario : string :=
  "You are working in a busy hospital ward during a night shift. A patient's family member " ++
  "approaches you with extreme anger, blaming you for a delayed medication dose that " ++
  "has caused their relative discomfort. They raise their voice, attracting attention from " ++
  "other patients and staff. The family member threatens to file a complaint and questions " ++
  "your competence. Meanwhile, you have other critical patients requiring immediate attention.".

Definition management_scenario : string :=
  "You are leading a team project with a tight deadline. Two of your team members are " ++
  "engaged in a heated argument during a critical meeting, each blaming the other for " ++
  "missed deadlines and poor quality work. The conflict escalates, with personal attacks " ++
  "being exchanged. The rest of the team looks uncomfortable, and the project deadline " ++
  "is in 48 hours. Your supervisor is expecting a status update in 2 hours.".

Definition generic_scenario : string :=
  "You have just presented your work to a group of colleagues and stakeholders. " ++
  "A senior colleague publicly criticizes your approach, pointing out what they perceive " ++
  "as fundamental flaws in your methodology. Their tone is condescending, and several " ++
  "others in the room begin questioning your decisions. You spent weeks preparing this " ++
  "work and believe in its value, but now you're facing public scrutiny and doubt.".

Definition generate_scenario (self : AdvancedEQAssessmentModel)
    (age : Z) (gender profession : string) : string :=
  let profession_lower := Text.lower profession in
  if Text.contains "teacher" profession_lower
     || Text.contains "lecturer" profession_lower
     || Text.contains "educator" profession_lower
  then teacher_scenario
  else if Text.contains "nurse" profession_lower
          || Text.contains "doctor" profession_lower
          || Text.contains "physician" profession_lower
  then healthcare_scenario
  else if Text.contains "manager" profession_lower
          || Text.contains "lead" profession_lower
          || Text.contains "director" profession_lower
  then management_scenario
  else generic_scenario.

Definition generate_questions (self : AdvancedEQAssessmentModel)
    (scenario : string) : list string :=
  [ "What emotions would you feel in this situation, and why? Describe the intensity and sequence of your emotional reactions.";
    "How would you manage your emotions before responding to the situation? What strategies would you use to stay composed?";
    "How would you resolve this conflict or address this challenge? Describe your approach and the reasoning behind it.";
    "How would you cope with the stress and pressure of this situation? What internal and external resources would you draw upon?";
    "What would you learn from this experience, and how might it affect your future behavior in similar situations?" ].

(** ** Response validation *)

Definition empty_message (position : Z) : string :=
  "Answer " ++ Text.of_int position ++
  " cannot be empty. Please provide a thoughtful response.".

Definition short_message (position required actual : Z) : string :=
  "Answer " ++ Text.of_int position ++
  " is too short. Please provide at least " ++ Text.of_int required ++ " words " ++
  "(currently " ++ Text.of_int actual ++
  " words). Your response should be detailed and reflective.".

(** [not response or not response.strip()] *)
Definition is_blank (response : string) : bool :=
  negb (Text.truthy response) || negb (Text.truthy (Text.strip response)).

(** [len(response.strip().split())] *)
Definition word_count (response : string) : Z :=
  Z.of_nat (List.length (Text.split (Text.strip response))).

(** The body of the loop [for i, response in enumerate(responses)], from
    index [i] on. *)
Fixpoint validate_from (self : AdvancedEQAssessmentModel) (i : Z)
    (responses : list string) : bool * option string :=
  match responses with
  | [] => (true, None)
  | response :: rest =>
      if is_blank response then (false, Some (empty_message (i + 1)))
      else
        if word_count response <? min_words_per_response self
        then (false,
              Some (short_message (i + 1) (min_words_per_response self)
                      (word_count response)))
        else validate_from self (i + 1) rest
  end.

Definition validate_responses (self : AdvancedEQAssessmentModel)
    (responses : list string) : bool * option string :=
  validate_from self 0 responses.

(** ** Feature extraction *)

(** One feature record, the dictionary [analyze_single_response] returns. *)
Record analysis : Type := {
  sentiment_label : string;
  sentiment_score : Q;
  emotion_scores : Dict.t Q;
  primary_emotion : option string;
  primary_emotion_score : Q
}.

Definition Qltb (x y : Q) : bool := negb (Qle_bool y x).

(** [bool(v)] *)
Definition truthy (v : pyval) : bool :=
  match v with
  | PNone => false
  | PBool b => b
  | PInt z => negb (z =? 0)
  | PFloat q => negb (Qeq_bool q 0)
  | PStr s => Text.truthy s
  | PList items | PTuple items =>
      match items with [] => false | _ :: _ => true end
  | PDict entries => Dict.truthy entries
  end.

(** [v.get(key, dflt)]: only a dictionary has the method. *)
Definition method_get (v : pyval) (key : string) (dflt : pyval) : outcome pyval :=
  match v with
  | PDict entries => Returns (Dict.get_default key dflt entries)
  | _ => Raises AttributeError
  end.

(** [v.upper()] and [v.lower()]: only a string has the methods. *)
Definition method_case (f : string -> string) (v : pyval) : outcome string :=
  match v with
  | PStr s => Returns (f s)
  | _ => Raises AttributeError
  end.

(** An integer converts to a float when it rounds to a finite one. *)
Definition float_int_limit : Z := 2 ^ 1024 - 2 ^ 970.

Section Builtins.

(** The two builtins the extractor calls on arbitrary values are taken as
    they are: [float(s)] on a string ([None] when the string is not a
    number) and [str(v)] on a value that is not a string. *)
Variable float_of_text : string -> option Q.
Variable text_of_value : pyval -> string.

(** [float(v)] *)
Definition py_float (v : pyval) : outcome Q :=
  match v with
  | PFloat q => Returns q
  | PInt z =>
      if Z.abs z <? float_int_limit then Returns (inject_Z z)
      else Raises OverflowError
  | PBool b => Returns (if b then 1%Q else 0%Q)
  | PStr s =>
      match float_of_text s with
      | Some q => Returns q
      | None => Raises ValueError
      end
  | PNone | PList _ | PTuple _ | PDict _ => Raises TypeError
  end.

(** [str(v)] *)
Definition py_str (v : pyval) : string :=
  match v with
  | PStr s => s
  | _ => text_of_value v
  end.

(** The sentiment result the label and score are read from. *)
Definition default_sentiment : pyval :=
  PDict [("label", PStr "NEUTRAL"); ("score", PFloat (1 # 2))].

Definition select_sentiment (sentiment_result_raw : pyval) : pyval :=
  match sentiment_result_raw with
  | PList (first :: _) => first
  | PDict _ => sentiment_result_raw
  | _ => default_sentiment
  end.

Definition standard_label (sentiment_label : string) : string :=
  if String.eqb sentiment_label "POSITIVE" || String.eqb sentiment_label "POS"
  then "POSITIVE"
  else if String.eqb sentiment_label "NEGATIVE"
          || String.eqb sentiment_label "NEG"
  then "NEGATIVE"
  else "NEUTRAL".

(** The score of a [(label, score)] pair. *)
Definition pair_score (score_value : pyval) : outcome Q :=
  match score_value with
  | PDict entries => py_float (Dict.get_default "score" (PFloat 0) entries)
  | PInt _ | PFloat _ | PBool _ => py_float score_value
  | _ =>
      try_except (py_float score_value)
        (fun e =>
           match e with
           | ValueError | TypeError => Returns 0%Q
           | _ => Raises e
           end)
  end.

(** A record [{'label': ..., 'score': ...}] added to the mapping. *)
Definition absorb_record (emotion_scores : Dict.t Q)
    (entries : list (string * pyval)) : outcome (Dict.t Q) :=
  label <- method_case Text.lower
             (Dict.get_default "label" (PStr "") entries) ;;
  let score := Dict.get_default "score" (PFloat 0) entries in
  if Text.truthy label
  then s <- py_float score ;; Returns (Dict.set label s emotion_scores)
  else Returns emotion_scores.

(** One iteration of [for emotion_item in emotion_results]. *)
Definition absorb_item (emotion_scores : Dict.t Q) (emotion_item : pyval)
  : outcome (Dict.t Q) :=
  match emotion_item with
  | PDict entries => absorb_record emotion_scores entries
  | PList items | PTuple items =>
      if (2 <=? List.length items)%nat
      then
        let label := Text.lower (py_str (nth 0 items PNone)) in
        score <- pair_score (nth 1 items PNone) ;;
        if Text.truthy label
        then Returns (Dict.set label score emotion_scores)
        else Returns emotion_scores
      else Returns emotion_scores
  | _ => Returns emotion_scores
  end.

Fixpoint absorb_items (emotion_scores : Dict.t Q) (items : list pyval)
  : outcome (Dict.t Q) :=
  match items with
  | [] => Returns emotion_scores
  | emotion_item :: rest =>
      d <- absorb_item emotion_scores emotion_item ;; absorb_items d rest
  end.

(** One iteration of [for key, value in emotion_results.items()]. *)
Definition absorb_entry (emotion_scores : Dict.t Q) (key : string)
    (value : pyval) : outcome (Dict.t Q) :=
  match value with
  | PInt _ | PFloat _ | PBool _ =>
      s <- py_float value ;;
      Returns (Dict.set (Text.lower key) s emotion_scores)
  | PDict entries =>
      match Dict.get "score" entries with
      | Some score =>
          s <- py_float score ;;
          Returns (Dict.set (Text.lower key) s emotion_scores)
      | None => Returns emotion_scores
      end
  | _ => Returns emotion_scores
  end.

Fixpoint absorb_entries (emotion_scores : Dict.t Q)
    (entries : list (string * pyval)) : outcome (Dict.t Q) :=
  match entries with
  | [] => Returns emotion_scores
  | (key, value) :: rest =>
      d <- absorb_entry emotion_scores key value ;; absorb_entries d rest
  end.

(** The emotion results converted to a flat mapping. *)
Definition convert_emotions (emotion_results : pyval) : outcome (Dict.t Q) :=
  if truthy emotion_results
  then
    match emotion_results with
    | PList items => absorb_items [] items
    | PDict entries =>
        if Dict.mem "label" entries then absorb_record [] entries
        else absorb_entries [] entries
    | _ => Returns []
    end
  else Returns [].

(** [max(d, key=d.get)] continued from a current best: a later key wins
    only with a strictly greater score. *)
Fixpoint arg_max (best : string) (best_score : Q) (d : Dict.t Q) : string :=
  match d with
  | [] => best
  | (k, v) :: rest =>
      if Qltb best_score v then arg_max k v rest
      else arg_max best best_score rest
  end.

Definition find_primary (emotion_scores : Dict.t Q) : option string * Q :=
  match emotion_scores with
  | [] => (None, 0%Q)
  | (k, v) :: rest =>
      let primary := arg_max k v rest in
      (Some primary, Dict.get_default primary 0%Q emotion_scores)
  end.

Definition analyze_single_response (self : AdvancedEQAssessmentModel)
    (text : string) : outcome analysis :=
  sentiment_result_raw <- sentiment_pipeline self text ;;
  let sentiment_result := select_sentiment sentiment_result_raw in
  raw_label <- method_get sentiment_result "label" (PStr "NEUTRAL") ;;
  sentiment_label <- method_case Text.upper raw_label ;;
  raw_score <- method_get sentiment_result "score" (PFloat (1 # 2)) ;;
  sentiment_score <- py_float raw_score ;;
  let sentiment_label := standard_label sentiment_label in
  emotion_results <-
    try_except (emotion_pipeline self text) (fun _ => Returns (PList [])) ;;
  emotion_scores <- convert_emotions emotion_results ;;
  let (primary_emotion, primary_emotion_score) :=
    find_primary emotion_scores in
  Returns {| sentiment_label := sentiment_label;
             sentiment_score := sentiment_score;
             emotion_scores := emotion_scores;
             primary_emotion := primary_emotion;
             primary_emotion_score := primary_emotion_score |}.

Fixpoint analyze_responses (self : AdvancedEQAssessmentModel)
    (responses : list string) : outcome (list analysis) :=
  match responses with
  | [] => Returns []
  | response :: rest =>
      a <- analyze_single_response self response ;;
      analyses <- analyze_responses self rest ;;
      Returns (a :: analyses)
  end.

End Builtins.

(** ** Aggregation and scoring *)

(** The [demographics] dictionary; a field is [None] when its key is
    absent. *)
Record demographics : Type := {
  age : option Z;
  gender : option string;
  profession : option string
}.

Section Scoring.

Local Open Scope Q_scope.

(** [min(a, b)] and [max(a, b)] of two numbers: the first argument is kept
    unless the second is strictly smaller (greater). *)
Definition py_min (a b : Q) : Q := if Qltb b a then b else a.
Definition py_max (a b : Q) : Q := if Qltb a b then b else a.

(** [sum(values)] *)
Definition py_sum (values : list Q) : Q := fold_left Qplus values 0.

(** [np.mean(values)] *)
Definition np_mean (values : list Q) : Q :=
  py_sum values / inject_Z (Z.of_nat (List.length values)).

(** The variables the aggregation loop updates. *)
Record totals : Type := {
  total_sentiment_positive : Q;
  total_sentiment_negative : Q;
  total_sentiment_neutral : Q;
  sentiment_count : Z;
  emotion_totals : Dict.t Q
}.

Definition initial_totals : totals :=
  {| total_sentiment_positive := 0;
     total_sentiment_negative := 0;
     total_sentiment_neutral := 0;
     sentiment_count := 0;
     emotion_totals := [] |}.

(** One iteration of [for emotion_label, score in ....items()]. *)
Definition add_emotion (emotion_totals : Dict.t Q) (item : string * Q)
  : Dict.t Q :=
  let (emotion_label, score) := item in
  let emotion_totals :=
    if Dict.mem emotion_label emotion_totals then emotion_totals
    else Dict.set emotion_label 0 emotion_totals in
  Dict.set emotion_label
    (Dict.get_default emotion_label 0 emotion_totals + score) emotion_totals.

(** One iteration of [for analysis in analyses]. *)
Definition accumulate (acc : totals) (a : analysis) : totals :=
  let label := sentiment_label a in
  let score := sentiment_score a in
  let is_positive := String.eqb label "POSITIVE" in
  let is_negative := negb is_positive && String.eqb label "NEGATIVE" in
  {| total_sentiment_positive :=
       if is_positive then total_sentiment_positive acc + score
       else total_sentiment_positive acc;
     total_sentiment_negative :=
       if is_negative then total_sentiment_negative acc + score
       else total_sentiment_negative acc;
     total_sentiment_neutral :=
       if is_positive || is_negative then total_sentiment_neutral acc
       else total_sentiment_neutral acc + score;
     sentiment_count := (sentiment_count acc + 1)%Z;
     emotion_totals :=
       fold_left add_emotion (emotion_scores a) (emotion_totals acc) |}.

Definition aggregate (analyses : list analysis) : totals :=
  fold_left accumulate analyses initial_totals.

(** The normalised ratios. *)
Record ratios : Type := {
  positive_ratio : Q;
  negative_ratio : Q;
  neutral_ratio : Q;
  emotion_ratios : Dict.t Q
}.

Definition normalize_emotions (emotion_totals : Dict.t Q) : Dict.t Q :=
  let total_emotion_score := py_sum (Dict.values emotion_totals) in
  if Qltb 0 total_emotion_score
  then map (fun item : string * Q =>
              (fst item, snd item / total_emotion_score)) emotion_totals
  else map (fun item : string * Q =>
              (fst item,
               if Dict.truthy emotion_totals
               then 1 / inject_Z (Z.of_nat (List.length emotion_totals))
               else 0)) emotion_totals.

Definition normalize (t : totals) : ratios :=
  let count := inject_Z (sentiment_count t) in
  {| positive_ratio :=
       if (0 <? sentiment_count t)%Z then total_sentiment_positive t / count
       else 33 # 100;
     negative_ratio :=
       if (0 <? sentiment_count t)%Z then total_sentiment_negative t / count
       else 33 # 100;
     neutral_ratio :=
       if (0 <? sentiment_count t)%Z then total_sentiment_neutral t / count
       else 33 # 100;
     emotion_ratios := normalize_emotions (emotion_totals t) |}.

(** [min(1.0, age / 60.0)] with [age = demographics.get('age', 30)] *)
Definition age_factor (d : demographics) : Q :=
  let age := match age d with Some a => a | None => 30%Z end in
  py_min 1 (inject_Z age / 60).

(** [max(0, min(100, x))] *)
Definition clamp (x : Q) : Q := py_max 0 (py_min 100 x).

Definition category_scores_of (r : ratios) (d : demographics) : Dict.t Q :=
  let positive_ratio := positive_ratio r in
  let negative_ratio := negative_ratio r in
  let neutral_ratio := neutral_ratio r in
  let emotion_ratios := emotion_ratios r in
  let joy_ratio := Dict.get_default "joy" 0 emotion_ratios in
  let sadness_ratio := Dict.get_default "sadness" 0 emotion_ratios in
  let anger_ratio := Dict.get_default "anger" 0 emotion_ratios in
  let fear_ratio := Dict.get_default "fear" 0 emotion_ratios in
  let disgust_ratio := Dict.get_default "disgust" 0 emotion_ratios in
  let surprise_ratio := Dict.get_default "surprise" 0 emotion_ratios in
  let love_ratio := Dict.get_default "love" 0 emotion_ratios in
  let neutral_emotion_ratio := Dict.get_default "neutral" 0 emotion_ratios in
  let self_awareness :=
    50 + 50 * (joy_ratio + love_ratio - sadness_ratio - anger_ratio) in
  let emotional_resilience :=
    50 + 50 * (positive_ratio - negative_ratio - fear_ratio * (1 # 2)) in
  let conflict_resolution :=
    50 + 50 * (positive_ratio - anger_ratio - disgust_ratio) in
  let cultural_awareness :=
    50 + 50 * (neutral_ratio + love_ratio - disgust_ratio) in
  let empathy :=
    50 + 50 * (love_ratio + sadness_ratio * (7 # 10) - disgust_ratio) in
  let stress_management :=
    50 + 50 * (positive_ratio - fear_ratio - anger_ratio) in
  let age_factor := age_factor d in
  let emotional_resilience := emotional_resilience + age_factor * 5 in
  let stress_management := stress_management + age_factor * 3 in
  [ ("self_awareness", clamp self_awareness);
    ("emotional_resilience", clamp emotional_resilience);
    ("conflict_resolution", clamp conflict_resolution);
    ("cultural_awareness", clamp cultural_awareness);
    ("empathy", clamp empathy);
    ("stress_management", clamp stress_management) ].

Definition calculate_eq_scores (self : AdvancedEQAssessmentModel)
    (analyses : list analysis) (d : demographics) : Dict.t Q * Q :=
  let category_scores := category_scores_of (normalize (aggregate analyses)) d in
  let overall_score := np_mean (Dict.values category_scores) in
  (category_scores, overall_score).

(** ** Interpretation *)

Definition interpret_overall_eq (self : AdvancedEQAssessmentModel)
    (overall_score : Q) : string :=
  if Qltb overall_score 40 then "Low EQ"
  else if Qle_bool overall_score 70 then "Average EQ"
  else "High EQ".

End Scoring.

(** ** Construction *)

(** [__init__], given the two loaded pipelines. *)
Definition init (sentiment emotion : string -> outcome pyval)
  : AdvancedEQAssessmentModel :=
  {| sentiment_pipeline := sentiment;
     emotion_pipeline := emotion;
     eq_categories :=
       ["self_awareness"; "emotional_resilience"; "conflict_resolution";
        "cultural_awareness"; "empathy"; "stress_management"];
     min_words_per_response := 10 |}.

(** * Specification-side definitions *)

(** A response passes both checks of the validator. *)
Definition acceptable (self : AdvancedEQAssessmentModel) (response : string)
  : bool :=
  negb (is_blank response)
  && negb (word_count response <? min_words_per_response self).

(** The integer a decimal numeral denotes, [None] for any other text. *)
Definition decimal_value (s : string) : option Z :=
  option_map Z.of_int (NilZero.int_of_string s).

(** The keyword groups in priority order, each with its scenario. *)
Definition keyword_groups : list (list string * string) :=
  [ (["teacher"; "lecturer"; "educator"], teacher_scenario);
    (["nurse"; "doctor"; "physician"], healthcare_scenario);
    (["manager"; "lead"; "director"], management_scenario) ].

(** The scenario of the first group with a keyword occurring in the
    lower-cased profession, the generic one when there is none. *)
Definition spec_scenario (profession : string) : string :=
  match
    find (fun group =>
            existsb (fun keyword =>
                       Text.contains keyword (Text.lower profession))
              (fst group))
      keyword_groups
  with
  | Some group => snd group
  | None => generic_scenario
  end.

Definition scenario_texts : list string :=
  [teacher_scenario; healthcare_scenario; management_scenario;
   generic_scenario].

(** The documented classifier outputs.  A number is a float, a boolean or
    an integer that converts to a float; a result record has a textual label
    and a numeric score, each possibly absent. *)
Definition is_number (v : pyval) : bool :=
  match v with
  | PFloat _ | PBool _ => true
  | PInt z => Z.abs z <? float_int_limit
  | _ => false
  end.

Definition is_text (v : pyval) : bool :=
  match v with PStr _ => true | _ => false end.

Definition is_result (entries : list (string * pyval)) : bool :=
  is_text (Dict.get_default "label" (PStr "") entries)
  && is_number (Dict.get_default "score" (PFloat 0) entries).

(** Sentiment output that is neither a non-empty list nor a dictionary:
    missing, malformed or unrecognised. *)
Definition unrecognized_sentiment (raw : pyval) : bool :=
  match raw with
  | PList (_ :: _) | PDict _ => false
  | _ => true
  end.

(** A single result, a list starting with one, or an unrecognised value. *)
Definition documented_sentiment (raw : pyval) : bool :=
  match raw with
  | PList (PDict entries :: _) => is_result entries
  | PList (_ :: _) => false
  | PDict entries => is_result entries
  | _ => true
  end.

(** The score position of a pair: a number, a dictionary with a numeric or
    absent 'score', or anything else (which counts as 0.0). *)
Definition documented_pair_score (v : pyval) : bool :=
  match v with
  | PDict entries => is_number (Dict.get_default "score" (PFloat 0) entries)
  | PInt _ => is_number v
  | _ => true
  end.

(** An element of a list output: a result record, a pair, or anything of
    another format (which is skipped). *)
Definition documented_item (item : pyval) : bool :=
  match item with
  | PDict entries => is_result entries
  | PList items | PTuple items =>
      if (2 <=? List.length items)%nat
      then documented_pair_score (nth 1 items PNone)
      else true
  | _ => true
  end.

(** A value of a label-keyed mapping. *)
Definition documented_value (value : pyval) : bool :=
  match value with
  | PInt _ => is_number value
  | PDict entries =>
      match Dict.get "score" entries with
      | Some score => is_number score
      | None => true
      end
  | _ => true
  end.

(** A list of records or pairs, a single record, a label-keyed mapping, or
    any other value (which yields no emotions). *)
Definition documented_emotion (results : pyval) : bool :=
  match results with
  | PList items => forallb documented_item items
  | PDict entries =>
      if Dict.mem "label" entries then is_result entries
      else forallb (fun entry => documented_value (snd entry)) entries
  | _ => true
  end.

Section SpecScoring.

Local Open Scope Q_scope.

(** An emotion ratio, 0.0 if absent. *)
Definition ratio_of (r : ratios) (emotion : string) : Q :=
  Dict.get_default emotion 0 (emotion_ratios r).

(** The age used by the scorer. *)
Definition age_of (d : demographics) : Z :=
  match age d with Some a => a | None => 30%Z end.

(** [age_factor = min(1.0, age / 60.0)] *)
Definition spec_age_factor (age : Z) : Q :=
  if Qle_bool 1 (inject_Z age / 60) then 1 else inject_Z age / 60.

(** A score clamped to [0,100]. *)
Definition spec_clamp (x : Q) : Q :=
  if Qltb x 0 then 0 else if Qltb 100 x then 100 else x.

(** The six formulas of the specification, before clamping. *)
Definition spec_unclamped (r : ratios) (age : Z) : Dict.t Q :=
  let positive := positive_ratio r in
  let negative := negative_ratio r in
  let neutral := neutral_ratio r in
  let joy := ratio_of r "joy" in
  let love := ratio_of r "love" in
  let sadness := ratio_of r "sadness" in
  let anger := ratio_of r "anger" in
  let fear := ratio_of r "fear" in
  let disgust := ratio_of r "disgust" in
  [ ("self_awareness", 50 + 50 * (joy + love - sadness - anger));
    ("emotional_resilience",
     50 + 50 * (positive - negative - (1 # 2) * fear)
     + spec_age_factor age * 5);
    ("conflict_resolution", 50 + 50 * (positive - anger - disgust));
    ("cultural_awareness", 50 + 50 * (neutral + love - disgust));
    ("empathy", 50 + 50 * (love + (7 # 10) * sadness - disgust));
    ("stress_management",
     50 + 50 * (positive - fear - anger) + spec_age_factor age * 3) ].

Definition spec_category_scores (r : ratios) (age : Z) : Dict.t Q :=
  map (fun item : string * Q => (fst item, spec_clamp (snd item)))
    (spec_unclamped r age).

(** The unweighted mean of the six clamped scores. *)
Definition spec_overall_score (r : ratios) (age : Z) : Q :=
  fold_right Qplus 0 (Dict.values (spec_category_scores r age)) / 6.

(** Two score mappings with the same keys in the same order and equal
    values. *)
Definition scores_equiv (a b : Dict.t Q) : Prop :=
  Forall2 (fun x y : string * Q => fst x = fst y /\ snd x == snd y) a b.

Definition in_range (x : Q) : Prop := 0 <= x /\ x <= 100.

Definition unit_interval (x : Q) : Prop := 0 <= x /\ x <= 1.

(** All sentiment ratios and all emotion ratios lie in [0,1]. *)
Definition unit_ratios (r : ratios) : Prop :=
  unit_interval (positive_ratio r)
  /\ unit_interval (negative_ratio r)
  /\ unit_interval (neutral_ratio r)
  /\ forall emotion, unit_interval (ratio_of r emotion).

(** The sum of the sentiment scores of the records selected by [p]. *)
Definition score_sum (p : analysis -> bool) (analyses : list analysis) : Q :=
  fold_right (fun a s => if p a then sentiment_score a + s else s) 0 analyses.

Definition has_label (label : string) (a : analysis) : bool :=
  String.eqb (sentiment_label a) label.

(** A label that is neither POSITIVE nor NEGATIVE. *)
Definition other_label (a : analysis) : bool :=
  negb (has_label "POSITIVE" a) && negb (has_label "NEGATIVE" a).

(** The label of a feature record is one of the three standard ones. *)
Definition standard (a : analysis) : Prop :=
  sentiment_label a = "POSITIVE"%string
  \/ sentiment_label a = "NEGATIVE"%string
  \/ sentiment_label a = "NEUTRAL"%string.

(** All (emotion, score) entries of all records, in order. *)
Definition all_items (analyses : list analysis) : list (string * Q) :=
  flat_map emotion_scores analyses.

(** The total score of one emotion over a list of entries. *)
Definition item_total (emotion : string) (items : list (string * Q)) : Q :=
  fold_right
    (fun item s => if String.eqb (fst item) emotion then snd item + s else s)
    0 items.

Definition emotion_total (emotion : string) (analyses : list analysis) : Q :=
  item_total emotion (all_items analyses).

(** The labels of [l] not in [seen], each once, in order of first
    occurrence. *)
Fixpoint distinct (seen l : list string) : list string :=
  match l with
  | [] => []
  | x :: rest =>
      if existsb (String.eqb x) seen then distinct seen rest
      else x :: distinct (seen ++ [x]) rest
  end.

(** The observed emotion keys. *)
Definition observed_emotions (analyses : list analysis) : list string :=
  distinct [] (map fst (all_items analyses)).

(** The grand sum of all emotion totals. *)
Definition grand_total (analyses : list analysis) : Q :=
  fold_right Qplus 0
    (map (fun emotion => emotion_total emotion analyses)
       (observed_emotions analyses)).

(** The number of records, as a number. *)
Definition count_of (analyses : list analysis) : Q :=
  inject_Z (Z.of_nat (List.length analyses)).

(** A record with neutral sentiment and no detected emotion. *)
Definition neutral_without_emotions (a : analysis) : Prop :=
  sentiment_label a = "NEUTRAL"%string /\ emotion_scores a = [].

(** The mean of the six scores when four are 50 and the two age-sensitive
    ones are 50 plus their age adjustment, clamped. *)
Definition neutral_overall (d : demographics) : Q :=
  (50 + clamp (50 + age_factor d * 5) + 50 + 50 + 50
   + clamp (50 + age_factor d * 3)) / 6.

End SpecScoring.

(** ** Sample inputs *)

(** A model whose sentiment classifier returns nothing usable and whose
    emotion classifier fails. *)
Definition quiet_model : AdvancedEQAssessmentModel :=
  init (fun _ => Returns PNone)
       (fun _ => Raises (OtherException "RuntimeError")).

Definition with_age (a : option Z) : demographics :=
  {| age := a; gender := Some "other"; profession := Some "Nurse" |}.

Definition neutral_record (score : Q) : analysis :=
  {| sentiment_label := "NEUTRAL";
     sentiment_score := score;
     emotion_scores := [];
     primary_emotion := None;
     primary_emotion_score := 0 |}.

Definition joyful_record (label : string) (score fear : Q) : analysis :=
  {| sentiment_label := label;
     sentiment_score := score;
     emotion_scores := [("joy", 1%Q); ("fear", fear)];
     primary_emotion := Some "joy";
     primary_emotion_score := 1 |}.

(** Three records whose emotion totals are joy 3 and fear 1. *)
Definition sample_analyses : list analysis :=
  [ joyful_record "POSITIVE" (9 # 10) (1 # 4);
    joyful_record "NEGATIVE" (4 # 5) (1 # 4);
    joyful_record "NEUTRAL" (1 # 2) (1 # 2) ].

(** Records whose emotion keys exist with all scores 0. *)
Definition silent_analyses : list analysis :=
  [ {| sentiment_label := "NEUTRAL";
       sentiment_score := 1 # 2;
       emotion_scores := [("joy", 0%Q); ("fear", 0%Q)];
       primary_emotion := Some "joy";
       primary_emotion_score := 0 |} ].

(** * The response view ([assessment/views.py]) *)

(** The computation of the POST branch of [response_view], once the scenario
    and the questions are in the session: the request is its POST mapping,
    the response is the error page or the values stored in the session
    before the redirect. *)

Section Views.

Local Open Scope Q_scope.

Variable float_of_text : string -> option Q.
Variable text_of_value : pyval -> string.

(** [f'answer_{i}'] *)
Definition answer_key (i : nat) : string :=
  "answer_" ++ Text.of_int (Z.of_nat i).

(** The loop [for i in range(len(questions))] collecting
    [request.POST.get(answer_key, '').strip()]. *)
Definition collect_responses (post : Dict.t string) (questions : list string)
  : list string :=
  map (fun i => Text.strip (Dict.get_default (answer_key i) "" post))
    (seq 0 (List.length questions)).

(** One iteration of the sentiment summary loop. *)
Definition count_sentiment (sentiment_counts : Dict.t Q) (a : analysis)
  : Dict.t Q :=
  let label := sentiment_label a in
  let score := sentiment_score a in
  if Dict.mem label sentiment_counts
  then Dict.set label (Dict.get_default label 0 sentiment_counts + score)
         sentiment_counts
  else sentiment_counts.

Definition initial_sentiment_counts : Dict.t Q :=
  [("POSITIVE", 0); ("NEGATIVE", 0); ("NEUTRAL", 0)].

Definition default_sentiment_percent : Dict.t Q :=
  [("POSITIVE", 333 # 10); ("NEGATIVE", 333 # 10); ("NEUTRAL", 333 # 10)].

(** [sentiment_percent] *)
Definition sentiment_summary (analyses : list analysis) : Dict.t Q :=
  let sentiment_counts :=
    fold_left count_sentiment analyses initial_sentiment_counts in
  let total_sentiment := py_sum (Dict.values sentiment_counts) in
  if Qltb 0 total_sentiment
  then map (fun item : string * Q =>
              (fst item, snd item / total_sentiment * 100)) sentiment_counts
  else default_sentiment_percent.

(** [sorted(items, key=lambda x: x[1], reverse=True)]: a stable sort by
    descending value, here by insertion from the right. *)
Fixpoint insert_descending (item : string * Q) (sorted : list (string * Q))
  : list (string * Q) :=
  match sorted with
  | [] => [item]
  | next :: rest =>
      if Qltb (snd item) (snd next)
      then next :: insert_descending item rest
      else item :: next :: rest
  end.

Definition sorted_descending (items : list (string * Q))
  : list (string * Q) :=
  fold_right insert_descending [] items.

Definition view_emotion_totals (analyses : list analysis) : Dict.t Q :=
  fold_left
    (fun emotion_totals a =>
       fold_left add_emotion (emotion_scores a) emotion_totals)
    analyses [].

(** [emotion_percent], sorted *)
Definition emotion_summary (analyses : list analysis) : Dict.t Q :=
  let emotion_totals := view_emotion_totals analyses in
  let total_emotion := py_sum (Dict.values emotion_totals) in
  let emotion_percent :=
    if Qltb 0 total_emotion
    then map (fun item : string * Q =>
                (fst item, snd item / total_emotion * 100)) emotion_totals
    else [] in
  sorted_descending emotion_percent.

(** The values stored in the session. *)
Record assessment_result : Type := {
  result_category_scores : Dict.t Q;
  result_overall_score : Q;
  result_eq_level : string;
  result_sentiment_percent : Dict.t Q;
  result_emotion_percent : Dict.t Q
}.

Inductive view_response : Type :=
| RenderError (error_message : option string)
| RedirectResult (stored : assessment_result).

Definition empty_demographics : demographics :=
  {| age := None; gender := None; profession := None |}.

Definition response_view_post (self : AdvancedEQAssessmentModel)
    (questions : list string) (session_demographics : option demographics)
    (post : Dict.t string) : outcome view_response :=
  let demographics :=
    match session_demographics with
    | Some d => d
    | None => empty_demographics
    end in
  let responses := collect_responses post questions in
  let (is_valid, error_message) := validate_responses self responses in
  if negb is_valid then Returns (RenderError error_message)
  else
    analyses <- analyze_responses float_of_text text_of_value self responses ;;
    let (category_scores, overall_score) :=
      calculate_eq_scores self analyses demographics in
    let eq_level := interpret_overall_eq self overall_score in
    Returns
      (RedirectResult
         {| result_category_scores := category_scores;
            result_overall_score := overall_score;
            result_eq_level := eq_level;
            result_sentiment_percent := sentiment_summary analyses;
            result_emotion_percent := emotion_summary analyses |}).

End Views.

(** ** Further specification-side definitions *)

(** No whitespace character occurs in the string. *)
Fixpoint no_space (s : string) : bool :=
  match s with
  | EmptyString => true
  | String c rest => negb (Text.is_space c) && no_space rest
  end.

(** The string is empty or starts with a character that is no whitespace. *)
Definition starts_clean (s : string) : bool :=
  match s with
  | EmptyString => true
  | String c _ => negb (Text.is_space c)
  end.

(** Every key is its own lower case. *)
Definition lowercase_keys (d : Dict.t Q) : Prop :=
  Forall (fun k => Text.lower k = k) (Dict.keys d).

(** The invariant of the emotion mapping under construction. *)
Definition tidy (d : Dict.t Q) : Prop :=
  NoDup (Dict.keys d) /\ lowercase_keys d.

(** The sum of the scores the view counts: those of the records with one of
    the three standard labels. *)
Definition counted_total (analyses : list analysis) : Q :=
  (score_sum (has_label "POSITIVE") analyses
  + score_sum (has_label "NEGATIVE") analyses
  + score_sum (has_label "NEUTRAL") analyses)%Q.

(** The score bounds of a feature record: sentiment score in [0,1], emotion
    scores not negative. *)
Definition bounded_record (a : analysis) : Prop :=
  (0 <= sentiment_score a /\ sentiment_score a <= 1)%Q
  /\ Forall (fun item : string * Q => (0 <= snd item)%Q) (emotion_scores a).

(** Entries in descending order of value. *)
Definition descending (items : list (string * Q)) : Prop :=
  StronglySorted (fun x y : string * Q => (snd y <= snd x)%Q) items.

(** A model whose classifiers answer every text with the same mixed-case
    results. *)
Definition sample_model : AdvancedEQAssessmentModel :=
  init (fun _ =>
          Returns (PList [PDict [("label", PStr "positive");
                                 ("score", PFloat (9 # 10))]]))
       (fun _ =>
          Returns (PList [PDict [("label", PStr "Joy");
                                 ("score", PFloat (1 # 5))];
                          PTuple [PStr "FEAR"; PFloat (7 # 10)];
                          PDict [("label", PStr "joy");
                                 ("score", PFloat (1 # 10))]])).

(** A model whose sentiment classifier fails on the empty text. *)
Definition fragile_model : AdvancedEQAssessmentModel :=
  init (fun text =>
          if Text.truthy text
          then Returns (PDict [("label", PStr "NEG")])
          else Raises (OtherException "ValueError"))
       (fun _ => Returns PNone).

Definition sample_answer : string :=
  "I would stay calm and listen to the student before I answer".

(** The feature record [sample_model] yields for every text. *)
Definition sample_record : analysis :=
  {| sentiment_label := "POSITIVE";
     sentiment_score := 9 # 10;
     emotion_scores := [("joy", 1 # 10); ("fear", 7 # 10)];
     primary_emotion := Some "fear";
     primary_emotion_score := 7 # 10 |}.

(** A POST mapping with all five answers, and one with the first only. *)
Definition sample_post : Dict.t string :=
  [ ("csrfmiddlewaretoken", "token");
    ("answer_0", "  " ++ sample_answer);
    ("answer_1", sample_answer ++ "  ");
    ("answer_2", sample_answer);
    ("answer_3", sample_answer);
    ("answer_4", sample_answer) ].

Definition partial_post : Dict.t string :=
  [ ("answer_0", sample_answer); ("answer_1", "   ") ].

(** * Theorems *)

(** ** Text *)

Lemma prefix_append (needle after : string) :
  prefix needle (needle ++ after) = true.
Proof.
  induction needle as [|x n IH]; simpl.
  - destruct after; reflexivity.
  - destruct (ascii_dec x x); [exact IH | contradiction].
Qed.

Lemma contains_prefix (needle hay : string) :
  prefix needle hay = true -> Text.contains needle hay = true.
Proof. intros H. destruct hay; cbn [Text.contains]; rewrite H; reflexivity. Qed.

Lemma contains_append (needle before after : string) :
  Text.contains needle (before ++ needle ++ after) = true.
Proof.
  induction before as [|c before IH].
  - change (EmptyString ++ needle ++ after) with (needle ++ after).
    apply contains_prefix, prefix_append.
  - cbn [append Text.contains]. rewrite IH.
    now destruct (prefix needle (String c (before ++ needle ++ after))).
Qed.

Lemma prefix_split (needle hay : string) :
  prefix needle hay = true -> exists after, hay = needle ++ after.
Proof.
  revert hay. induction needle as [|x n IH]; intros hay H.
  - exists hay. reflexivity.
  - destruct hay as [|y h]; simpl in H; [discriminate|].
    destruct (ascii_dec x y) as [->|]; [|discriminate].
    destruct (IH _ H) as [after ->]. now exists after.
Qed.

(** [Text.contains] decides the substring relation. *)
Lemma contains_substring (needle hay : string) :
  Text.contains needle hay = true <->
  exists before after, hay = before ++ needle ++ after.
Proof.
  split.
  - induction hay as [|c h IH]; cbn [Text.contains].
    + destruct (prefix needle EmptyString) eqn:P; [|discriminate].
      intros _. destruct (prefix_split _ _ P) as [after E].
      exists EmptyString, after. exact E.
    + destruct (prefix needle (String c h)) eqn:P.
      * intros _. destruct (prefix_split _ _ P) as [after E].
        exists EmptyString, after. exact E.
      * intros H. destruct (IH H) as (before & after & ->).
        now exists (String c before), after.
  - intros (before & after & ->). apply contains_append.
Qed.

(** ** Scenario generation *)

Lemma generate_scenario_spec (self : AdvancedEQAssessmentModel)
    (age : Z) (gender profession : string) :
  generate_scenario self age gender profession = spec_scenario profession.
Proof.
  unfold generate_scenario, spec_scenario, keyword_groups.
  cbn [find existsb fst snd].
  repeat rewrite orb_false_r.
  repeat rewrite orb_assoc.
  destruct (Text.contains "teacher" _ || Text.contains "lecturer" _
            || Text.contains "educator" _); [reflexivity|].
  destruct (Text.contains "nurse" _ || Text.contains "doctor" _
            || Text.contains "physician" _); [reflexivity|].
  destruct (Text.contains "manager" _ || Text.contains "lead" _
            || Text.contains "director" _); reflexivity.
Qed.

Lemma scenario_texts_distinct : NoDup scenario_texts.
Proof.
  unfold scenario_texts.
  repeat constructor; simpl; intuition discriminate.
Qed.

(** C8: [generate_scenario] ignores age and gender and returns the scenario
    of the first keyword group (teacher/lecturer/educator, then
    nurse/doctor/physician, then manager/lead/director) with a keyword that
    is a substring of the lower-cased profession, the generic scenario when
    no group matches; the result is one of four pairwise distinct texts, each
    of which is returned for some profession, and "Lead Teacher" gets the
    teacher scenario, not the management one. *)
Theorem generate_scenario_priority (self : AdvancedEQAssessmentModel)
    (age : Z) (gender profession : string) :
  generate_scenario self age gender profession = spec_scenario profession
  /\ In (generate_scenario self age gender profession) scenario_texts
  /\ NoDup scenario_texts
  /\ generate_scenario self age gender "Lead Teacher" = teacher_scenario
  /\ generate_scenario self age gender "Lead Teacher" <> management_scenario
  /\ generate_scenario self age gender "Team Lead" = management_scenario
  /\ generate_scenario self age gender "Head Nurse" = healthcare_scenario
  /\ generate_scenario self age gender "Software Engineer" = generic_scenario.
Proof.
  split; [apply generate_scenario_spec|].
  split.
  { unfold generate_scenario, scenario_texts.
    repeat match goal with |- context [if ?b then _ else _] => destruct b end;
      simpl; auto. }
  split; [apply scenario_texts_distinct|].
  repeat split; try (vm_compute; reflexivity).
  vm_compute. discriminate.
Qed.

(** ** Response validation *)

Lemma validate_from_skip (self : AdvancedEQAssessmentModel)
    (before rest : list string) :
  forallb (acceptable self) before = true ->
  forall i,
    validate_from self i (before ++ rest)
    = validate_from self (i + Z.of_nat (List.length before)) rest.
Proof.
  induction before as [|r before IH]; intros Hok i.
  - simpl. now rewrite Z.add_0_r.
  - simpl in Hok. apply andb_true_iff in Hok as [Hr Hb].
    unfold acceptable in Hr. apply andb_true_iff in Hr as [Hn Hw].
    apply negb_true_iff in Hn, Hw.
    cbn [app validate_from]. rewrite Hn, Hw, (IH Hb).
    f_equal. cbn [List.length]. lia.
Qed.

(** C9: the empty list of responses passes validation. *)
Theorem validate_responses_nil (self : AdvancedEQAssessmentModel) :
  validate_responses self [] = (true, None).
Proof. reflexivity. Qed.

Lemma of_int_decimal (z : Z) : decimal_value (Text.of_int z) = Some z.
Proof.
  unfold decimal_value, Text.of_int.
  rewrite NilZero.isi.
  - cbn [option_map]. f_equal. apply DecimalZ.of_to.
  - intros E. pose proof (DecimalZ.of_to z) as H. rewrite E in H.
    cbn in H. subst z. cbv in E. discriminate E.
  - intros E. pose proof (DecimalZ.of_to z) as H. rewrite E in H.
    cbn in H. subst z. cbv in E. discriminate E.
Qed.

(** C5: [validate_responses] fails at the first response, in order, that is
    blank or has fewer words than the minimum.  For a blank one the error is
    the text "Answer k cannot be empty. Please provide a thoughtful
    response.", for a short one "Answer k is too short. Please provide at
    least m words (currently n words). Your response should be detailed and
    reflective.", where k is the 1-based position, m the configured minimum
    and n the word count of the response, each written as its decimal
    numeral (which reads back as the number).  When every response passes the
    result is [(True, None)].  The minimum set by [__init__] is 10; the two
    examples of the specification and failures at later positions evaluate
    to the texts shown. *)
Theorem validate_responses_first_failure (self : AdvancedEQAssessmentModel)
    (responses : list string) :
  (forall before r after,
      responses = (before ++ r :: after)%list ->
      forallb (acceptable self) before = true ->
      is_blank r = true ->
      validate_responses self responses
      = (false,
         Some ("Answer " ++ Text.of_int (Z.of_nat (List.length before) + 1)
               ++ " cannot be empty. Please provide a thoughtful response.")))
  /\ (forall before r after,
         responses = (before ++ r :: after)%list ->
         forallb (acceptable self) before = true ->
         is_blank r = false ->
         word_count r < min_words_per_response self ->
         validate_responses self responses
         = (false,
            Some ("Answer "
                  ++ Text.of_int (Z.of_nat (List.length before) + 1)
                  ++ " is too short. Please provide at least "
                  ++ Text.of_int (min_words_per_response self)
                  ++ " words (currently "
                  ++ Text.of_int (word_count r)
                  ++ " words). Your response should be detailed and reflective.")))
  /\ (forall z, decimal_value (Text.of_int z) = Some z)
  /\ (forallb (acceptable self) responses = true ->
      validate_responses self responses = (true, None))
  /\ (forall sp ep,
         min_words_per_response (init sp ep) = 10
         /\ validate_responses (init sp ep)
              [""; "ten word sentence one two three four five six seven"]
            = (false,
               Some "Answer 1 cannot be empty. Please provide a thoughtful response.")
         /\ validate_responses (init sp ep) ["too short text"]
            = (false,
               Some ("Answer 1 is too short. Please provide at least 10 words "
                     ++ "(currently 3 words). "
                     ++ "Your response should be detailed and reflective."))
         /\ validate_responses (init sp ep)
              ["ten word sentence one two three four five six seven";
               "ten word sentence one two three four five six seven";
               "   "]
            = (false,
               Some "Answer 3 cannot be empty. Please provide a thoughtful response.")
         /\ validate_responses (init sp ep)
              ["ten word sentence one two three four five six seven";
               "only four words here";
               ""]
            = (false,
               Some ("Answer 2 is too short. Please provide at least 10 words "
                     ++ "(currently 4 words). "
                     ++ "Your response should be detailed and reflective."))
         /\ validate_responses (init sp ep)
              (List.repeat
                 "ten word sentence one two three four five six seven" 11
               ++ ["eleven words are in this answer but twelve are wanted here"])%list
            = (true, None)
         /\ validate_responses
              {| sentiment_pipeline := sp; emotion_pipeline := ep;
                 eq_categories := []; min_words_per_response := 12 |}
              (List.repeat
                 "ten word sentence one two three four five six seven eight nine" 11
               ++ ["eleven words are in this answer but twelve are wanted here"])%list
            = (false,
               Some ("Answer 12 is too short. Please provide at least 12 words "
                     ++ "(currently 11 words). "
                     ++ "Your response should be detailed and reflective."))).
Proof.
  unfold validate_responses.
  split; [|split; [|split; [|split]]].
  - intros before r after -> Hok Hblank.
    rewrite (validate_from_skip _ _ _ Hok). cbn [validate_from].
    rewrite Hblank. reflexivity.
  - intros before r after -> Hok Hblank Hshort.
    rewrite (validate_from_skip _ _ _ Hok). cbn [validate_from].
    rewrite Hblank. apply Z.ltb_lt in Hshort. rewrite Hshort. reflexivity.
  - apply of_int_decimal.
  - intros Hok.
    rewrite <- (app_nil_r responses), (validate_from_skip _ _ _ Hok).
    reflexivity.
  - intros sp ep. repeat split; vm_compute; reflexivity.
Qed.

Lemma validate_responses_first_failure_witness :
  validate_responses quiet_model
    ["I would stay calm and listen to the student before I answer";
     "   "; "short"]
  = (false,
     Some "Answer 2 cannot be empty. Please provide a thoughtful response.")
  /\ validate_responses quiet_model
       ["I would stay calm and listen to the student before I answer";
        "far too short"]
     = (false,
        Some ("Answer 2 is too short. Please provide at least 10 words "
              ++ "(currently 3 words). "
              ++ "Your response should be detailed and reflective."))
  /\ validate_responses quiet_model
       ["I would stay calm and listen to the student before I answer"]
     = (true, None).
Proof.
  split; [|split].
  - apply (proj1 (validate_responses_first_failure quiet_model _)
             ["I would stay calm and listen to the student before I answer"]
             "   " ["short"]); vm_compute; reflexivity.
  - apply (proj1 (proj2 (validate_responses_first_failure quiet_model _))
             ["I would stay calm and listen to the student before I answer"]
             "far too short" []); vm_compute; reflexivity.
  - apply (proj1 (proj2 (proj2 (proj2 (validate_responses_first_failure
                                         quiet_model _))))).
    vm_compute. reflexivity.
Defined.

(** ** Dictionaries *)

Section DictFacts.

Context {V : Type}.
Implicit Types (d : Dict.t V) (k : string) (v : V).

Lemma get_set_same k v d : Dict.get k (Dict.set k v d) = Some v.
Proof.
  induction d as [|[k' v'] d IH]; cbn [Dict.set Dict.get].
  - now rewrite String.eqb_refl.
  - destruct (String.eqb k k') eqn:E; cbn [Dict.get]; rewrite E; auto.
Qed.

Lemma get_set_other k k' v d :
  k' <> k -> Dict.get k' (Dict.set k v d) = Dict.get k' d.
Proof.
  intros N. induction d as [|[k0 v0] d IH]; cbn [Dict.set Dict.get].
  - apply String.eqb_neq in N. now rewrite N.
  - destruct (String.eqb k k0) eqn:E; cbn [Dict.get].
    + apply String.eqb_eq in E. subst k0.
      apply String.eqb_neq in N. now rewrite N.
    + now rewrite IH.
Qed.

Lemma mem_existsb k d : Dict.mem k d = existsb (String.eqb k) (Dict.keys d).
Proof.
  unfold Dict.mem.
  induction d as [|[k' v'] d IH]; cbn [Dict.get Dict.keys map existsb fst].
  - reflexivity.
  - destruct (String.eqb k k'); [reflexivity | exact IH].
Qed.

Lemma mem_in_keys k d : Dict.mem k d = true <-> In k (Dict.keys d).
Proof.
  rewrite mem_existsb, existsb_exists. split.
  - intros (x & I & E). apply String.eqb_eq in E. now subst.
  - intros I. exists k. split; [exact I | apply String.eqb_refl].
Qed.

Lemma keys_set k v d :
  Dict.keys (Dict.set k v d)
  = if Dict.mem k d then Dict.keys d else (Dict.keys d ++ [k])%list.
Proof.
  unfold Dict.mem.
  induction d as [|[k' v'] d IH]; cbn [Dict.set Dict.get Dict.keys map fst app].
  - reflexivity.
  - destruct (String.eqb k k') eqn:E; cbn [map fst].
    + reflexivity.
    + unfold Dict.keys in IH. rewrite IH.
      now destruct (Dict.get k d).
Qed.

Lemma get_map_values (f : V -> V) k d :
  Dict.get k (map (fun item : string * V => (fst item, f (snd item))) d)
  = option_map f (Dict.get k d).
Proof.
  induction d as [|[k' v'] d IH]; cbn [map Dict.get fst snd].
  - reflexivity.
  - destruct (String.eqb k k'); [reflexivity | exact IH].
Qed.

Lemma keys_map_values (f : V -> V) d :
  Dict.keys (map (fun item : string * V => (fst item, f (snd item))) d)
  = Dict.keys d.
Proof.
  unfold Dict.keys. rewrite map_map. reflexivity.
Qed.

Lemma get_in_keys k d : In k (Dict.keys d) -> exists v, Dict.get k d = Some v.
Proof.
  intros I. apply mem_in_keys in I. unfold Dict.mem in I.
  destruct (Dict.get k d) as [v|]; [now exists v | discriminate].
Qed.

Lemma get_not_in_keys k d : ~ In k (Dict.keys d) -> Dict.get k d = None.
Proof.
  intros N. destruct (Dict.get k d) as [v|] eqn:E; [|reflexivity].
  exfalso. apply N, mem_in_keys. unfold Dict.mem. now rewrite E.
Qed.

End DictFacts.

(** ** Observed keys *)

Lemma distinct_fresh (seen l : list string) :
  NoDup seen -> NoDup (seen ++ distinct seen l).
Proof.
  revert seen. induction l as [|x l IH]; intros seen N; cbn [distinct].
  - now rewrite app_nil_r.
  - destruct (existsb (String.eqb x) seen) eqn:E.
    + now apply IH.
    + change (x :: distinct (seen ++ [x]) l)
        with ([x] ++ distinct (seen ++ [x]) l)%list.
      rewrite app_assoc. apply IH.
      apply NoDup_app; [exact N | repeat constructor; intros [] |].
      intros y Iy [Exy|[]]. subst y.
      assert (T : existsb (String.eqb x) seen = true).
      { apply existsb_exists. exists x. split; [exact Iy|apply String.eqb_refl]. }
      congruence.
Qed.

Lemma distinct_members (seen l : list string) (x : string) :
  In x (seen ++ distinct seen l) <-> In x seen \/ In x l.
Proof.
  revert seen. induction l as [|y l IH]; intros seen; cbn [distinct].
  - rewrite app_nil_r. cbn [In]. tauto.
  - destruct (existsb (String.eqb y) seen) eqn:E.
    + rewrite IH. cbn [In]. split; [tauto|].
      intros [H|[<-|H]]; auto.
      left. apply existsb_exists in E as (z & Iz & Ez).
      apply String.eqb_eq in Ez. now subst.
    + change (y :: distinct (seen ++ [y]) l)
        with ([y] ++ distinct (seen ++ [y]) l)%list.
      rewrite app_assoc, IH, in_app_iff. cbn [In]. tauto.
Qed.

(** ** Numbers *)

Section ScoringFacts.

Local Open Scope Q_scope.

Lemma Qltb_lt (x y : Q) : Qltb x y = true <-> x < y.
Proof.
  unfold Qltb. rewrite negb_true_iff.
  split; intros H.
  - apply Qnot_le_lt. intros L. apply Qle_bool_iff in L. congruence.
  - destruct (Qle_bool y x) eqn:E; [|reflexivity].
    apply Qle_bool_iff in E. lra.
Qed.

Lemma Qltb_ge (x y : Q) : Qltb x y = false <-> y <= x.
Proof.
  unfold Qltb. rewrite negb_false_iff. apply Qle_bool_iff.
Qed.

Lemma Qle_bool_gt (x y : Q) : Qle_bool x y = false <-> y < x.
Proof.
  split; intros H.
  - apply Qnot_le_lt. intros L. apply Qle_bool_iff in L. congruence.
  - destruct (Qle_bool x y) eqn:E; [|reflexivity].
    apply Qle_bool_iff in E. lra.
Qed.

Ltac plain t :=
  lazymatch t with
  | context [Qltb] => fail
  | context [Qle_bool] => fail
  | _ => idtac
  end.

Ltac by_cases :=
  repeat match goal with
    | |- context [Qltb ?a ?b] =>
        plain a; plain b;
        let E := fresh "E" in
        destruct (Qltb a b) eqn:E;
        [apply Qltb_lt in E | apply Qltb_ge in E]
    | |- context [Qle_bool ?a ?b] =>
        plain a; plain b;
        let E := fresh "E" in
        destruct (Qle_bool a b) eqn:E;
        [apply Qle_bool_iff in E | apply Qle_bool_gt in E]
    end.

Lemma clamp_in_range (x : Q) : in_range (clamp x).
Proof. unfold in_range, clamp, py_max, py_min. by_cases; lra. Qed.

Lemma clamp_spec_clamp (x : Q) : clamp x == spec_clamp x.
Proof. unfold spec_clamp, clamp, py_max, py_min. by_cases; lra. Qed.

Lemma clamp_inside (x : Q) : in_range x -> clamp x == x.
Proof. unfold in_range, clamp, py_max, py_min. intros [L U]. by_cases; lra. Qed.

#[local] Instance clamp_proper : Proper (Qeq ==> Qeq) clamp.
Proof.
  intros x y E. unfold clamp, py_max, py_min.
  by_cases; lra.
Qed.

Lemma age_factor_spec (d : demographics) :
  age_factor d == spec_age_factor (age_of d).
Proof.
  unfold age_factor, spec_age_factor, age_of, py_min.
  destruct (age d); by_cases; lra.
Qed.

(** ** Interpretation *)

(** C4: [interpret_overall_eq] returns "Low EQ" exactly below 40,
    "Average EQ" exactly from 40 to 70 inclusive and "High EQ" exactly above
    70; 39.99, 40.0, 70.0 and 70.01 fall on the documented sides. *)
Theorem interpret_overall_eq_thresholds (self : AdvancedEQAssessmentModel)
    (score : Q) :
  (interpret_overall_eq self score = "Low EQ" <-> score < 40)
  /\ (interpret_overall_eq self score = "Average EQ"
      <-> 40 <= score /\ score <= 70)
  /\ (interpret_overall_eq self score = "High EQ" <-> 70 < score)
  /\ interpret_overall_eq self (3999 # 100) = "Low EQ"
  /\ interpret_overall_eq self 40 = "Average EQ"
  /\ interpret_overall_eq self 70 = "Average EQ"
  /\ interpret_overall_eq self (7001 # 100) = "High EQ".
Proof.
  unfold interpret_overall_eq.
  split; [|split; [|split]].
  - by_cases; split; intros H; try discriminate; try reflexivity; lra.
  - by_cases; split; intros H; try discriminate; try reflexivity; lra.
  - by_cases; split; intros H; try discriminate; try reflexivity; lra.
  - repeat split; vm_compute; reflexivity.
Qed.

(** ** Category scores *)

Lemma category_scores_equiv (r : ratios) (d : demographics) :
  scores_equiv (category_scores_of r d) (spec_category_scores r (age_of d)).
Proof.
  pose proof (age_factor_spec d) as A.
  unfold scores_equiv, category_scores_of, spec_category_scores,
    spec_unclamped, ratio_of.
  cbn [map fst snd].
  repeat apply Forall2_cons; try apply Forall2_nil;
    (split; [reflexivity|]); cbn [snd];
    rewrite <- clamp_spec_clamp; apply clamp_proper; lra.
Qed.

Lemma category_scores_keys (r : ratios) (d : demographics) :
  Dict.keys (category_scores_of r d)
  = ["self_awareness"; "emotional_resilience"; "conflict_resolution";
     "cultural_awareness"; "empathy"; "stress_management"]%string.
Proof. reflexivity. Qed.

Lemma category_scores_in_range (r : ratios) (d : demographics) :
  Forall in_range (Dict.values (category_scores_of r d)).
Proof.
  unfold category_scores_of, Dict.values. cbn [map snd].
  repeat constructor; apply clamp_in_range.
Qed.

Lemma mean_of_six (a b c d e f : Q) :
  np_mean [a; b; c; d; e; f] == (a + b + c + d + e + f) / 6.
Proof.
  unfold np_mean, py_sum. cbn [fold_left List.length].
  change (inject_Z (Z.of_nat 6)) with 6. field.
Qed.

Lemma overall_in_range (r : ratios) (d : demographics) :
  in_range (np_mean (Dict.values (category_scores_of r d))).
Proof.
  pose proof (category_scores_in_range r d) as H.
  unfold category_scores_of, Dict.values in *. cbn [map snd] in *.
  repeat match goal with
         | H : Forall _ (_ :: _) |- _ => inversion H; subst; clear H
         end.
  unfold in_range in *.
  rewrite mean_of_six.
  repeat match goal with
         | H : _ /\ _ |- _ => destruct H
         end.
  split.
  - apply Qle_shift_div_l; lra.
  - apply Qle_shift_div_r; lra.
Qed.

Lemma fold_left_Qplus (l : list Q) (a : Q) :
  fold_left Qplus l a == a + fold_right Qplus 0 l.
Proof.
  revert a. induction l as [|x l IH]; intros a; cbn [fold_left fold_right].
  - lra.
  - rewrite IH. lra.
Qed.

Lemma py_sum_fold_right (l : list Q) : py_sum l == fold_right Qplus 0 l.
Proof. unfold py_sum. rewrite fold_left_Qplus. lra. Qed.

Lemma fold_right_Qplus_equiv (l l' : list Q) :
  Forall2 Qeq l l' -> fold_right Qplus 0 l == fold_right Qplus 0 l'.
Proof.
  induction 1 as [|x y l l' E _ IH]; cbn [fold_right].
  - reflexivity.
  - rewrite E, IH. reflexivity.
Qed.

Lemma scores_equiv_values (a b : Dict.t Q) :
  scores_equiv a b -> Forall2 Qeq (Dict.values a) (Dict.values b).
Proof.
  induction 1 as [|x y a b [_ E] _ IH]; cbn [Dict.values map].
  - constructor.
  - constructor; [exact E | exact IH].
Qed.

Lemma overall_equiv (r : ratios) (d : demographics) :
  np_mean (Dict.values (category_scores_of r d))
  == spec_overall_score r (age_of d).
Proof.
  unfold np_mean, spec_overall_score.
  change (List.length (Dict.values (category_scores_of r d))) with 6%nat.
  change (inject_Z (Z.of_nat 6)) with 6.
  rewrite py_sum_fold_right.
  rewrite (fold_right_Qplus_equiv _ _
             (scores_equiv_values _ _ (category_scores_equiv r d))).
  reflexivity.
Qed.

(** C1: for feature records whose sentiment and emotion ratios lie in [0,1]
    and an age from 10 to 100, [calculate_eq_scores] returns exactly the six
    category scores, each in [0,100], and an overall score in [0,100].  The
    clamp gives the bounds by itself ([category_scores_in_range],
    [overall_in_range]), so the range assumptions are not used. *)
Theorem calculate_eq_scores_in_range (self : AdvancedEQAssessmentModel)
    (analyses : list analysis) (d : demographics) (a : Z) :
  unit_ratios (normalize (aggregate analyses)) ->
  age d = Some a ->
  (10 <= a <= 100)%Z ->
  Dict.keys (fst (calculate_eq_scores self analyses d))
  = ["self_awareness"; "emotional_resilience"; "conflict_resolution";
     "cultural_awareness"; "empathy"; "stress_management"]%string
  /\ Forall in_range (Dict.values (fst (calculate_eq_scores self analyses d)))
  /\ in_range (snd (calculate_eq_scores self analyses d)).
Proof.
  intros _ _ _. unfold calculate_eq_scores. cbn [fst snd].
  split; [apply category_scores_keys|].
  split; [apply category_scores_in_range | apply overall_in_range].
Qed.

(** C2: the category scores [calculate_eq_scores] returns are the six
    formulas of the specification (base 50 plus 50 times the linear
    combination, [age_factor * 5] and [age_factor * 3] added to
    emotional_resilience and stress_management, with
    [age_factor = min(1.0, age / 60.0)]), each clamped to [0,100] after the
    adjustment, and the overall score is the unweighted mean of the six
    clamped scores. *)
Theorem calculate_eq_scores_formulas (self : AdvancedEQAssessmentModel)
    (analyses : list analysis) (d : demographics) :
  let r := normalize (aggregate analyses) in
  scores_equiv (fst (calculate_eq_scores self analyses d))
    (spec_category_scores r (age_of d))
  /\ snd (calculate_eq_scores self analyses d)
     == spec_overall_score r (age_of d)
  /\ forall r' d', scores_equiv (category_scores_of r' d')
                     (spec_category_scores r' (age_of d')).
Proof.
  intros r. unfold calculate_eq_scores. cbn [fst snd]. fold r.
  split; [apply category_scores_equiv|].
  split; [|intros; apply category_scores_equiv].
  apply overall_equiv.
Qed.

(** C10: without an 'age' key the age is 30, the age factor 0.5, and the
    adjustments are +2.5 on emotional_resilience and +1.5 on
    stress_management. *)
Theorem default_age_adjustments (d : demographics) :
  age d = None ->
  age_of d = 30%Z
  /\ age_factor d == 1 # 2
  /\ age_factor d * 5 == 5 # 2
  /\ age_factor d * 3 == 3 # 2
  /\ forall (self : AdvancedEQAssessmentModel) (analyses : list analysis),
      let r := normalize (aggregate analyses) in
      exists resilience stress,
        Dict.get "emotional_resilience"
          (fst (calculate_eq_scores self analyses d)) = Some resilience
        /\ resilience
           == clamp (50 + 50 * (positive_ratio r - negative_ratio r
                                - ratio_of r "fear" * (1 # 2)) + (5 # 2))
        /\ Dict.get "stress_management"
             (fst (calculate_eq_scores self analyses d)) = Some stress
        /\ stress
           == clamp (50 + 50 * (positive_ratio r - ratio_of r "fear"
                                - ratio_of r "anger") + (3 # 2)).
Proof.
  intros H.
  assert (A : age_factor d == 1 # 2).
  { unfold age_factor, py_min. rewrite H. vm_compute. reflexivity. }
  split; [unfold age_of; now rewrite H|].
  split; [exact A|].
  split; [rewrite A; reflexivity|].
  split; [rewrite A; reflexivity|].
  intros self analyses r.
  unfold calculate_eq_scores, category_scores_of. fold r.
  cbn [fst Dict.get String.eqb Ascii.eqb Bool.eqb].
  eexists; eexists.
  split; [reflexivity|].
  split; [apply clamp_proper; unfold ratio_of; lra|].
  split; [reflexivity|].
  apply clamp_proper; unfold ratio_of; lra.
Qed.

(** ** Aggregation *)

Lemma add_emotion_keys (d : Dict.t Q) (k : string) (v : Q) :
  Dict.keys (add_emotion d (k, v))
  = if Dict.mem k d then Dict.keys d else (Dict.keys d ++ [k])%list.
Proof.
  unfold add_emotion. destruct (Dict.mem k d) eqn:M.
  - now rewrite keys_set, M.
  - assert (M' : Dict.mem k (Dict.set k 0 d) = true)
      by (unfold Dict.mem; now rewrite get_set_same).
    now rewrite keys_set, M', keys_set, M.
Qed.

Lemma add_emotion_get (d : Dict.t Q) (k : string) (v : Q) (e : string) :
  Dict.get_default e 0 (add_emotion d (k, v))
  == Dict.get_default e 0 d + (if String.eqb k e then v else 0).
Proof.
  unfold add_emotion, Dict.get_default.
  destruct (String.eqb k e) eqn:E.
  - apply String.eqb_eq in E. subst e. rewrite get_set_same.
    destruct (Dict.mem k d) eqn:M; [reflexivity|].
    rewrite get_set_same. unfold Dict.mem in M.
    destruct (Dict.get k d); [discriminate | reflexivity].
  - apply String.eqb_neq in E.
    rewrite get_set_other by congruence.
    destruct (Dict.mem k d); [lra|].
    rewrite get_set_other by congruence. lra.
Qed.

Lemma fold_add_keys (items : list (string * Q)) (d : Dict.t Q) :
  Dict.keys (fold_left add_emotion items d)
  = (Dict.keys d ++ distinct (Dict.keys d) (map fst items))%list.
Proof.
  revert d. induction items as [|[k v] items IH]; intros d;
    cbn [fold_left map fst distinct].
  - now rewrite app_nil_r.
  - rewrite IH, add_emotion_keys, <- mem_existsb.
    destruct (Dict.mem k d); [reflexivity|].
    now rewrite <- app_assoc.
Qed.

Lemma fold_add_get (items : list (string * Q)) (d : Dict.t Q) (e : string) :
  Dict.get_default e 0 (fold_left add_emotion items d)
  == Dict.get_default e 0 d + item_total e items.
Proof.
  revert d. induction items as [|[k v] items IH]; intros d;
    cbn [fold_left item_total fold_right fst snd].
  - lra.
  - rewrite IH, add_emotion_get. fold (item_total e items).
    destruct (String.eqb k e); lra.
Qed.

Lemma fold_accumulate (analyses : list analysis) (t0 : totals) :
  let t := fold_left accumulate analyses t0 in
  total_sentiment_positive t
  == total_sentiment_positive t0 + score_sum (has_label "POSITIVE") analyses
  /\ total_sentiment_negative t
     == total_sentiment_negative t0 + score_sum (has_label "NEGATIVE") analyses
  /\ total_sentiment_neutral t
     == total_sentiment_neutral t0 + score_sum other_label analyses
  /\ sentiment_count t
     = (sentiment_count t0 + Z.of_nat (List.length analyses))%Z
  /\ emotion_totals t
     = fold_left add_emotion (all_items analyses) (emotion_totals t0).
Proof.
  revert t0. induction analyses as [|a analyses IH]; intros t0.
  - cbn. repeat split; try lra. now rewrite Z.add_0_r.
  - cbn [fold_left]. cbv zeta.
    destruct (IH (accumulate t0 a)) as (P & N & U & C & E).
    cbv zeta in *. rewrite P, N, U, C, E. clear IH P N U C E.
    unfold all_items. cbn [flat_map]. rewrite fold_left_app.
    unfold accumulate, score_sum, other_label, has_label.
    cbn [total_sentiment_positive total_sentiment_negative
         total_sentiment_neutral sentiment_count emotion_totals
         fold_right List.length].
    destruct (String.eqb (sentiment_label a) "POSITIVE") eqn:EP;
      destruct (String.eqb (sentiment_label a) "NEGATIVE") eqn:EN;
      cbn [negb andb orb];
      repeat split; try lra; try lia.
    apply String.eqb_eq in EP, EN. congruence.
Qed.

Lemma sum_map_equiv {A : Type} (f g : A -> Q) (l : list A) :
  (forall x, In x l -> f x == g x) ->
  fold_right Qplus 0 (map f l) == fold_right Qplus 0 (map g l).
Proof.
  induction l as [|x l IH]; intros H; cbn [map fold_right].
  - reflexivity.
  - rewrite (H x (or_introl eq_refl)), IH; [reflexivity|].
    intros y I. apply H. now right.
Qed.

(** Without duplicate keys, the sum of the values is the sum of the lookups
    of the keys. *)
Lemma values_sum_keys (d : Dict.t Q) :
  NoDup (Dict.keys d) ->
  fold_right Qplus 0 (Dict.values d)
  == fold_right Qplus 0 (map (fun k => Dict.get_default k 0 d) (Dict.keys d)).
Proof.
  induction d as [|[k v] d IH]; intros N.
  - reflexivity.
  - cbn [Dict.keys Dict.values map fst snd fold_right] in *.
    inversion N as [|? ? Nk Nd]; subst.
    unfold Dict.get_default at 1. cbn [Dict.get]. rewrite String.eqb_refl.
    rewrite (IH Nd).
    apply Qplus_comp; [reflexivity|].
    apply sum_map_equiv. intros k' I.
    unfold Dict.get_default. cbn [Dict.get].
    destruct (String.eqb k' k) eqn:E; [|reflexivity].
    apply String.eqb_eq in E. subst k'. contradiction.
Qed.

Lemma aggregate_emotion_totals (analyses : list analysis) :
  emotion_totals (aggregate analyses)
  = fold_left add_emotion (all_items analyses) [].
Proof.
  unfold aggregate.
  destruct (fold_accumulate analyses initial_totals) as (_ & _ & _ & _ & E).
  exact E.
Qed.

Lemma aggregate_keys (analyses : list analysis) :
  Dict.keys (emotion_totals (aggregate analyses)) = observed_emotions analyses.
Proof. rewrite aggregate_emotion_totals, fold_add_keys. reflexivity. Qed.

Lemma observed_nodup (analyses : list analysis) :
  NoDup (observed_emotions analyses).
Proof. exact (distinct_fresh [] _ (NoDup_nil _)). Qed.

Lemma observed_members (analyses : list analysis) (e : string) :
  In e (observed_emotions analyses)
  <-> exists a, In a analyses /\ In e (Dict.keys (emotion_scores a)).
Proof.
  unfold observed_emotions.
  rewrite <- (app_nil_l (distinct [] _)), distinct_members.
  unfold all_items. cbn [In]. rewrite in_map_iff. split.
  - intros [[]|((k & v) & <- & I)].
    apply in_flat_map in I as (a & Ia & Ikv).
    exists a. split; [exact Ia|]. apply in_map_iff. now exists (k, v).
  - intros (a & Ia & Ie). right.
    apply in_map_iff in Ie as (kv & <- & Ikv).
    exists kv. split; [reflexivity|]. apply in_flat_map. now exists a.
Qed.

Lemma aggregate_lookup (analyses : list analysis) (e : string) :
  Dict.get_default e 0 (emotion_totals (aggregate analyses))
  == emotion_total e analyses.
Proof.
  rewrite aggregate_emotion_totals, fold_add_get.
  unfold emotion_total, Dict.get_default. cbn [Dict.get]. lra.
Qed.

Lemma aggregate_grand_total (analyses : list analysis) :
  py_sum (Dict.values (emotion_totals (aggregate analyses)))
  == grand_total analyses.
Proof.
  rewrite py_sum_fold_right, values_sum_keys.
  - rewrite aggregate_keys. unfold grand_total.
    apply sum_map_equiv. intros e _. apply aggregate_lookup.
  - rewrite aggregate_keys. apply observed_nodup.
Qed.

Lemma aggregate_count (analyses : list analysis) :
  sentiment_count (aggregate analyses) = Z.of_nat (List.length analyses).
Proof.
  unfold aggregate.
  destruct (fold_accumulate analyses initial_totals) as (_ & _ & _ & C & _).
  exact C.
Qed.

Lemma aggregate_sentiment (analyses : list analysis) :
  total_sentiment_positive (aggregate analyses)
  == score_sum (has_label "POSITIVE") analyses
  /\ total_sentiment_negative (aggregate analyses)
     == score_sum (has_label "NEGATIVE") analyses
  /\ total_sentiment_neutral (aggregate analyses)
     == score_sum other_label analyses.
Proof.
  unfold aggregate.
  destruct (fold_accumulate analyses initial_totals) as (P & N & U & _ & _).
  cbv zeta in *. cbn [initial_totals total_sentiment_positive
    total_sentiment_negative total_sentiment_neutral] in *.
  repeat split; lra.
Qed.

Lemma other_label_neutral (analyses : list analysis) :
  Forall standard analyses ->
  score_sum other_label analyses == score_sum (has_label "NEUTRAL") analyses.
Proof.
  induction 1 as [|a analyses S _ IH]; cbn [score_sum fold_right].
  - reflexivity.
  - fold (score_sum other_label analyses).
    fold (score_sum (has_label "NEUTRAL") analyses).
    unfold other_label at 1, has_label at 1 2 3.
    destruct S as [-> | [-> | ->]];
      cbn [String.eqb Ascii.eqb Bool.eqb negb andb]; rewrite IH; reflexivity.
Qed.

Lemma normalize_sentiment (analyses : list analysis) :
  analyses <> [] ->
  let r := normalize (aggregate analyses) in
  positive_ratio r
  == score_sum (has_label "POSITIVE") analyses / count_of analyses
  /\ negative_ratio r
     == score_sum (has_label "NEGATIVE") analyses / count_of analyses
  /\ neutral_ratio r == score_sum other_label analyses / count_of analyses.
Proof.
  intros NE r. subst r. unfold normalize, count_of.
  cbn [positive_ratio negative_ratio neutral_ratio].
  rewrite aggregate_count.
  destruct (aggregate_sentiment analyses) as (P & N & U).
  assert (L : (0 <? Z.of_nat (List.length analyses))%Z = true).
  { apply Z.ltb_lt. destruct analyses; [contradiction | cbn [List.length]; lia]. }
  rewrite L, P, N, U. repeat split; reflexivity.
Qed.

Lemma normalize_emotions_keys (d : Dict.t Q) :
  Dict.keys (normalize_emotions d) = Dict.keys d.
Proof.
  unfold normalize_emotions, Dict.keys.
  destruct (Qltb 0 (py_sum (Dict.values d))); rewrite map_map; reflexivity.
Qed.

Lemma normalize_emotions_positive (d : Dict.t Q) (e : string) (v : Q) :
  0 < py_sum (Dict.values d) ->
  Dict.get e d = Some v ->
  Dict.get e (normalize_emotions d) = Some (v / py_sum (Dict.values d)).
Proof.
  intros P G. unfold normalize_emotions.
  apply Qltb_lt in P. rewrite P.
  rewrite (get_map_values (fun x => x / py_sum (Dict.values d))), G.
  reflexivity.
Qed.

Lemma normalize_emotions_uniform (d : Dict.t Q) (e : string) (v : Q) :
  py_sum (Dict.values d) <= 0 ->
  Dict.get e d = Some v ->
  Dict.get e (normalize_emotions d)
  = Some (1 / inject_Z (Z.of_nat (List.length d))).
Proof.
  intros P G. unfold normalize_emotions.
  apply Qltb_ge in P. rewrite P.
  rewrite (get_map_values
             (fun _ => if Dict.truthy d
                       then 1 / inject_Z (Z.of_nat (List.length d)) else 0)).
  rewrite G. destruct d; [discriminate | reflexivity].
Qed.

(** C3: the aggregation inside [calculate_eq_scores].  With N records, each
    sentiment ratio is the sum of the sentiment scores of the records bearing
    the label, divided by N (0.33 each when N = 0; the neutral bucket takes
    every label that is neither POSITIVE nor NEGATIVE, which for feature
    records is the label NEUTRAL).  The emotion ratios are keyed by the
    observed emotions; each is the emotion's total divided by the grand sum of
    the totals when that sum is positive, and 1 over the number of observed
    keys when it is not; without observed keys the mapping is empty and every
    lookup yields 0. *)
Theorem aggregation_ratios (analyses : list analysis) :
  let r := normalize (aggregate analyses) in
  (forall self d,
      fst (calculate_eq_scores self analyses d) = category_scores_of r d)
  /\ (analyses = [] ->
      positive_ratio r = 33 # 100
      /\ negative_ratio r = 33 # 100
      /\ neutral_ratio r = 33 # 100)
  /\ (analyses <> [] ->
      positive_ratio r
      == score_sum (has_label "POSITIVE") analyses / count_of analyses
      /\ negative_ratio r
         == score_sum (has_label "NEGATIVE") analyses / count_of analyses
      /\ neutral_ratio r == score_sum other_label analyses / count_of analyses
      /\ (Forall standard analyses ->
          neutral_ratio r
          == score_sum (has_label "NEUTRAL") analyses / count_of analyses))
  /\ Dict.keys (emotion_ratios r) = observed_emotions analyses
  /\ (0 < grand_total analyses ->
      forall e, In e (observed_emotions analyses) ->
        exists q, Dict.get e (emotion_ratios r) = Some q
                  /\ q == emotion_total e analyses / grand_total analyses)
  /\ (grand_total analyses <= 0 ->
      forall e, In e (observed_emotions analyses) ->
        exists q, Dict.get e (emotion_ratios r) = Some q
                  /\ q == 1 / inject_Z (Z.of_nat
                                          (List.length
                                             (observed_emotions analyses))))
  /\ (observed_emotions analyses = [] ->
      emotion_ratios r = [] /\ forall e, ratio_of r e = 0).
Proof.
  intros r.
  assert (K : Dict.keys (emotion_ratios r) = observed_emotions analyses).
  { subst r. cbn [normalize emotion_ratios].
    now rewrite normalize_emotions_keys, aggregate_keys. }
  split; [reflexivity|].
  split.
  { intros ->. subst r. repeat split. }
  split.
  { intros NE. destruct (normalize_sentiment analyses NE) as (P & N & U).
    fold r in P, N, U. repeat split; try assumption.
    intros S. rewrite U, (other_label_neutral _ S). reflexivity. }
  split; [exact K|].
  split.
  { intros G e I.
    rewrite <- aggregate_keys in I.
    destruct (get_in_keys _ _ I) as [v Gv].
    exists (v / py_sum (Dict.values (emotion_totals (aggregate analyses)))).
    split.
    - subst r. cbn [normalize emotion_ratios].
      apply normalize_emotions_positive; [|exact Gv].
      now rewrite aggregate_grand_total.
    - rewrite aggregate_grand_total, <- aggregate_lookup.
      unfold Dict.get_default. rewrite Gv. reflexivity. }
  split.
  { intros G e I.
    rewrite <- aggregate_keys in I.
    destruct (get_in_keys _ _ I) as [v Gv].
    eexists. split.
    - subst r. cbn [normalize emotion_ratios].
      apply (normalize_emotions_uniform _ _ v); [|exact Gv].
      now rewrite aggregate_grand_total.
    - rewrite <- aggregate_keys. unfold Dict.keys. rewrite length_map.
      reflexivity. }
  intros O. rewrite O in K.
  assert (E : emotion_ratios r = []).
  { destruct (emotion_ratios r); [reflexivity | discriminate]. }
  split; [exact E|].
  intros e. unfold ratio_of. rewrite E. reflexivity.
Qed.

(** ** Records without emotions *)

Lemma clamp_value (x c : Q) : x == c -> in_range c -> clamp x == c.
Proof. intros E R. rewrite E. apply clamp_inside, R. Qed.

Ltac same_score :=
  first [ reflexivity
        | apply clamp_proper; lra
        | apply clamp_value; [lra | split; lra] ].

Lemma overall_without_emotions (r : ratios) (d : demographics) :
  emotion_ratios r = [] ->
  np_mean (Dict.values (category_scores_of r d))
  == (50
      + clamp (50 + 50 * (positive_ratio r - negative_ratio r)
               + age_factor d * 5)
      + clamp (50 + 50 * positive_ratio r)
      + clamp (50 + 50 * neutral_ratio r)
      + 50
      + clamp (50 + 50 * positive_ratio r + age_factor d * 3)) / 6.
Proof.
  intros E. unfold category_scores_of, Dict.values. cbn [map snd].
  rewrite mean_of_six, E.
  unfold Dict.get_default. cbn [Dict.get].
  apply Qdiv_comp; [|reflexivity].
  repeat apply Qplus_comp; same_score.
Qed.

Lemma neutral_all_items (analyses : list analysis) :
  Forall neutral_without_emotions analyses -> all_items analyses = [].
Proof.
  induction 1 as [|a analyses [_ E] _ IH]; [reflexivity|].
  unfold all_items in *. cbn [flat_map]. now rewrite E, IH.
Qed.

Lemma neutral_score_sums (analyses : list analysis) :
  Forall neutral_without_emotions analyses ->
  score_sum (has_label "POSITIVE") analyses == 0
  /\ score_sum (has_label "NEGATIVE") analyses == 0
  /\ score_sum other_label analyses == score_sum (fun _ => true) analyses.
Proof.
  induction 1 as [|a analyses [L _] _ (P & N & U)].
  - repeat split; reflexivity.
  - unfold score_sum, other_label, has_label in *. cbn [fold_right].
    rewrite L. cbn [String.eqb Ascii.eqb Bool.eqb negb andb].
    rewrite U. repeat split; assumption || reflexivity.
Qed.

Lemma neutral_emotion_ratios (analyses : list analysis) :
  Forall neutral_without_emotions analyses ->
  emotion_ratios (normalize (aggregate analyses)) = [].
Proof.
  intros H. cbn [normalize emotion_ratios].
  rewrite aggregate_emotion_totals, (neutral_all_items _ H).
  reflexivity.
Qed.

(** C7, as amended: when every record has an empty emotion mapping and the
    label NEUTRAL, every emotion ratio is 0.0 and, for at least one record,
    the overall score is the mean of 50 (self_awareness, conflict_resolution,
    empathy), of the clamped 50 plus age adjustment (emotional_resilience,
    stress_management) and of the clamped 50 + 50 * neutral ratio
    (cultural_awareness), the neutral ratio being the mean sentiment score;
    for no record at all the three sentiment ratios are the default 0.33. *)
Theorem neutral_records_overall (self : AdvancedEQAssessmentModel)
    (analyses : list analysis) (d : demographics) :
  Forall neutral_without_emotions analyses ->
  let r := normalize (aggregate analyses) in
  emotion_ratios r = []
  /\ (forall e, ratio_of r e = 0)
  /\ (analyses <> [] ->
      neutral_ratio r
      == score_sum (fun _ => true) analyses / count_of analyses
      /\ snd (calculate_eq_scores self analyses d)
         == (50 + clamp (50 + age_factor d * 5) + 50
             + clamp (50 + 50 * neutral_ratio r) + 50
             + clamp (50 + age_factor d * 3)) / 6)
  /\ (analyses = [] ->
      snd (calculate_eq_scores self analyses d)
      == (50 + clamp (50 + age_factor d * 5) + (133 # 2) + (133 # 2) + 50
          + clamp ((133 # 2) + age_factor d * 3)) / 6).
Proof.
  intros H r.
  pose proof (neutral_emotion_ratios _ H) as E. fold r in E.
  split; [exact E|].
  split; [intros e; unfold ratio_of; now rewrite E|].
  split.
  - intros NE.
    destruct (normalize_sentiment _ NE) as (P & N & U).
    destruct (neutral_score_sums _ H) as (SP & SN & SU).
    fold r in P, N, U.
    rewrite SP in P. rewrite SN in N. rewrite SU in U.
    assert (P0 : positive_ratio r == 0) by (rewrite P; apply Qmult_0_l).
    assert (N0 : negative_ratio r == 0) by (rewrite N; apply Qmult_0_l).
    split; [exact U|].
    unfold calculate_eq_scores. cbn [snd]. fold r.
    etransitivity; [apply (overall_without_emotions r d E)|].
    apply Qdiv_comp; [|reflexivity].
    repeat apply Qplus_comp; same_score.
  - intros ->.
    unfold calculate_eq_scores. cbn [snd].
    etransitivity; [apply (overall_without_emotions _ d E)|].
    subst r. cbn [aggregate fold_left normalize initial_totals
                  sentiment_count Z.ltb Z.compare positive_ratio
                  negative_ratio neutral_ratio].
    apply Qdiv_comp; [|reflexivity].
    repeat apply Qplus_comp; same_score.
Qed.

(** ** The statements at sample inputs *)

Lemma sample_unit_ratios : unit_ratios (normalize (aggregate sample_analyses)).
Proof.
  unfold unit_ratios, unit_interval, ratio_of, Dict.get_default.
  remember (normalize (aggregate sample_analyses)) as r eqn:E.
  vm_compute in E. subst r.
  cbn [positive_ratio negative_ratio neutral_ratio emotion_ratios Dict.get].
  repeat split; try lra;
    destruct (String.eqb emotion "joy"); try lra;
    destruct (String.eqb emotion "fear"); lra.
Qed.

Lemma calculate_eq_scores_in_range_witness :
  Forall in_range
    (Dict.values
       (fst (calculate_eq_scores quiet_model sample_analyses
               (with_age (Some 45%Z)))))
  /\ in_range
       (snd (calculate_eq_scores quiet_model sample_analyses
               (with_age (Some 45%Z)))).
Proof.
  apply (calculate_eq_scores_in_range quiet_model sample_analyses
           (with_age (Some 45%Z)) 45%Z).
  - exact sample_unit_ratios.
  - reflexivity.
  - lia.
Defined.

Lemma default_age_adjustments_witness :
  age_factor (with_age None) == 1 # 2
  /\ age_factor (with_age None) * 5 == 5 # 2
  /\ age_factor (with_age None) * 3 == 3 # 2.
Proof.
  destruct (default_age_adjustments (with_age None) eq_refl)
    as (_ & F & R & S & _).
  exact (conj F (conj R S)).
Defined.

Lemma aggregation_ratios_witness :
  positive_ratio (normalize (aggregate [])) = 33 # 100
  /\ positive_ratio (normalize (aggregate sample_analyses)) == 3 # 10
  /\ neutral_ratio (normalize (aggregate sample_analyses)) == 1 # 6
  /\ (exists q,
         Dict.get "joy" (emotion_ratios (normalize (aggregate sample_analyses)))
         = Some q /\ q == 3 # 4)
  /\ (exists q,
         Dict.get "fear" (emotion_ratios (normalize (aggregate silent_analyses)))
         = Some q /\ q == 1 # 2)
  /\ emotion_ratios (normalize (aggregate [neutral_record (1 # 2)])) = [].
Proof.
  split; [|split; [|split; [|split; [|split]]]].
  - destruct (aggregation_ratios []) as (_ & Hnil & _).
    exact (proj1 (Hnil eq_refl)).
  - destruct (aggregation_ratios sample_analyses) as (_ & _ & Hne & _).
    destruct (Hne ltac:(discriminate)) as (P & _).
    rewrite P. reflexivity.
  - destruct (aggregation_ratios sample_analyses) as (_ & _ & Hne & _).
    destruct (Hne ltac:(discriminate)) as (_ & _ & _ & U).
    rewrite U; [reflexivity|].
    repeat constructor; cbv; tauto.
  - destruct (aggregation_ratios sample_analyses) as (_ & _ & _ & _ & Hpos & _).
    destruct (Hpos ltac:(reflexivity) "joy"%string ltac:(cbv; tauto))
      as (q & G & E).
    exists q. split; [exact G|]. rewrite E. reflexivity.
  - destruct (aggregation_ratios silent_analyses)
      as (_ & _ & _ & _ & _ & Hzero & _).
    destruct (Hzero ltac:(discriminate) "fear"%string ltac:(cbv; tauto))
      as (q & G & E).
    exists q. split; [exact G|]. rewrite E. reflexivity.
  - destruct (aggregation_ratios [neutral_record (1 # 2)])
      as (_ & _ & _ & _ & _ & _ & Hnone).
    exact (proj1 (Hnone eq_refl)).
Defined.

Lemma neutral_records_overall_witness :
  snd (calculate_eq_scores quiet_model [neutral_record (1 # 2)]
         (with_age (Some 30%Z)))
  == 329 # 6.
Proof.
  destruct (neutral_records_overall quiet_model [neutral_record (1 # 2)]
              (with_age (Some 30%Z)))
    as (_ & _ & Hne & _).
  - repeat constructor.
  - destruct (Hne ltac:(discriminate)) as (_ & O).
    rewrite O. reflexivity.
Defined.

(** C7, as stated, fails: one neutral record with sentiment score 0.5 and
    no emotions, at age 30, has overall score 329/6 (about 54.83), not the
    304/6 (about 50.67) that four scores of 50 and the two age-adjusted ones
    give; with no record at all the overall score is 707/12. *)
Lemma neutral_overall_counterexample :
  Forall neutral_without_emotions [neutral_record (1 # 2)]
  /\ snd (calculate_eq_scores quiet_model [neutral_record (1 # 2)]
            (with_age (Some 30%Z))) == 329 # 6
  /\ snd (calculate_eq_scores quiet_model [] (with_age (Some 30%Z)))
     == 707 # 12
  /\ neutral_overall (with_age (Some 30%Z)) == 304 # 6
  /\ ~ (forall self analyses d,
           Forall neutral_without_emotions analyses ->
           snd (calculate_eq_scores self analyses d) == neutral_overall d).
Proof.
  split; [repeat constructor|].
  split; [reflexivity|].
  split; [reflexivity|].
  split; [reflexivity|].
  intros H.
  specialize (H quiet_model [neutral_record (1 # 2)] (with_age (Some 30%Z))).
  assert (F : Forall neutral_without_emotions [neutral_record (1 # 2)])
    by repeat constructor.
  specialize (H F). vm_compute in H. discriminate H.
Qed.

(** ** Normalisation of the ratios *)

Lemma sum_scaled (l : list Q) (c : Q) :
  fold_right Qplus 0 (map (fun v => v * c) l) == fold_right Qplus 0 l * c.
Proof.
  induction l as [|x l IH]; cbn [map fold_right].
  - lra.
  - rewrite IH. lra.
Qed.

Lemma count_succ (n : nat) :
  inject_Z (Z.of_nat (S n)) == inject_Z (Z.of_nat n) + 1.
Proof.
  rewrite Nat2Z.inj_succ. unfold Z.succ. rewrite inject_Z_plus. reflexivity.
Qed.

Lemma count_nonneg (n : nat) : 0 <= inject_Z (Z.of_nat n).
Proof. unfold Qle. cbn. lia. Qed.

Lemma sum_constant {A : Type} (l : list A) (c : Q) :
  fold_right Qplus 0 (map (fun _ => c) l)
  == inject_Z (Z.of_nat (List.length l)) * c.
Proof.
  induction l as [|x l IH]; cbn [map fold_right List.length].
  - change (inject_Z (Z.of_nat 0)) with 0. lra.
  - rewrite IH, count_succ. lra.
Qed.

Lemma normalize_emotions_total (d : Dict.t Q) :
  d <> [] -> py_sum (Dict.values (normalize_emotions d)) == 1.
Proof.
  intros NE. rewrite py_sum_fold_right.
  unfold normalize_emotions, Dict.values.
  destruct (Qltb 0 (py_sum (map snd d))) eqn:E; rewrite map_map; cbn [snd].
  - apply Qltb_lt in E.
    rewrite <- (map_map snd (fun v => v / py_sum (map snd d))).
    unfold Qdiv. rewrite sum_scaled, <- py_sum_fold_right.
    apply Qmult_inv_r. lra.
  - destruct d as [|item d]; [contradiction|].
    cbn [Dict.truthy].
    rewrite (sum_constant (item :: d)).
    pose proof (count_nonneg (List.length d)) as P.
    pose proof (count_succ (List.length d)) as S.
    cbn [List.length].
    unfold Qdiv. rewrite Qmult_1_l. apply Qmult_inv_r. lra.
Qed.

(** X10: whenever some emotion key was observed, the emotion ratios of the
    scorer sum to 1, in the proportional case as in the uniform fallback;
    with no key observed the ratio mapping is empty. *)
Theorem emotion_ratios_total (analyses : list analysis) :
  let r := normalize (aggregate analyses) in
  (observed_emotions analyses <> [] ->
   py_sum (Dict.values (emotion_ratios r)) == 1)
  /\ (observed_emotions analyses = [] -> emotion_ratios r = []).
Proof.
  intros r. subst r. cbn [normalize emotion_ratios].
  pose proof (aggregate_keys analyses) as K.
  split; intros O.
  - apply normalize_emotions_total. intros E. rewrite E in K.
    apply O. now rewrite <- K.
  - rewrite O in K.
    destruct (emotion_totals (aggregate analyses)); [reflexivity|discriminate].
Qed.

Lemma score_sum_bounds (p : analysis -> bool) (analyses : list analysis) :
  Forall bounded_record analyses ->
  0 <= score_sum p analyses /\ score_sum p analyses <= count_of analyses.
Proof.
  unfold count_of.
  induction 1 as [|a analyses [[L U] _] _ [IL IU]];
    cbn [score_sum fold_right List.length].
  - change (inject_Z (Z.of_nat 0)) with 0. split; lra.
  - fold (score_sum p analyses). rewrite count_succ.
    destruct (p a); split; lra.
Qed.

Lemma score_sum_split (analyses : list analysis) :
  score_sum (has_label "POSITIVE") analyses
  + score_sum (has_label "NEGATIVE") analyses
  + score_sum other_label analyses
  == score_sum (fun _ => true) analyses.
Proof.
  induction analyses as [|a analyses IH]; cbn [score_sum fold_right].
  - lra.
  - fold (score_sum (has_label "POSITIVE") analyses).
    fold (score_sum (has_label "NEGATIVE") analyses).
    fold (score_sum other_label analyses).
    fold (score_sum (fun _ => true) analyses).
    destruct (other_label a) eqn:O; unfold other_label in O;
      destruct (has_label "POSITIVE" a) eqn:P;
      destruct (has_label "NEGATIVE" a) eqn:N;
      cbn [negb andb] in O; try discriminate O; try lra.
    unfold has_label in P, N. apply String.eqb_eq in P, N. congruence.
Qed.

Lemma count_positive (analyses : list analysis) :
  analyses <> [] -> 0 < count_of analyses.
Proof.
  unfold count_of. destruct analyses as [|a analyses]; [contradiction|].
  intros _. cbn [List.length]. rewrite count_succ.
  pose proof (count_nonneg (List.length analyses)). lra.
Qed.

(** X11: with at least one record, the three sentiment ratios add up to the
    mean sentiment score of the records: every record contributes its score
    to exactly one of the three. *)
Theorem sentiment_ratios_total (analyses : list analysis) :
  analyses <> [] ->
  let r := normalize (aggregate analyses) in
  positive_ratio r + negative_ratio r + neutral_ratio r
  == score_sum (fun _ => true) analyses / count_of analyses.
Proof.
  intros NE r.
  destruct (normalize_sentiment analyses NE) as (P & N & U). fold r in P, N, U.
  rewrite P, N, U, <- score_sum_split.
  pose proof (count_positive analyses NE).
  field. lra.
Qed.

Lemma item_total_nonneg (e : string) (items : list (string * Q)) :
  Forall (fun item : string * Q => 0 <= snd item) items ->
  0 <= item_total e items.
Proof.
  induction 1 as [|item items H _ IH]; cbn [item_total fold_right].
  - lra.
  - fold (item_total e items). destruct (String.eqb (fst item) e); lra.
Qed.

Lemma all_items_nonneg (analyses : list analysis) :
  Forall bounded_record analyses ->
  Forall (fun item : string * Q => 0 <= snd item) (all_items analyses).
Proof.
  unfold all_items.
  induction 1 as [|a analyses [_ E] _ IH]; cbn [flat_map].
  - constructor.
  - apply Forall_app. split; assumption.
Qed.

Lemma sum_nonneg {A : Type} (f : A -> Q) (l : list A) :
  (forall x, 0 <= f x) -> 0 <= fold_right Qplus 0 (map f l).
Proof.
  intros H. induction l as [|x l IH]; cbn [map fold_right].
  - lra.
  - pose proof (H x). lra.
Qed.

Lemma sum_member_le {A : Type} (f : A -> Q) (l : list A) (x : A) :
  (forall y, 0 <= f y) -> In x l -> f x <= fold_right Qplus 0 (map f l).
Proof.
  intros H. induction l as [|y l IH]; intros I; [contradiction|].
  cbn [map fold_right]. pose proof (sum_nonneg f l H).
  destruct I as [->|I].
  - lra.
  - pose proof (IH I). pose proof (H y). lra.
Qed.

Lemma uniform_share (n : nat) :
  0 <= 1 / inject_Z (Z.of_nat (S n)) /\ 1 / inject_Z (Z.of_nat (S n)) <= 1.
Proof.
  pose proof (count_nonneg n) as P. pose proof (count_succ n) as S.
  split.
  - apply Qle_shift_div_l; lra.
  - apply Qle_shift_div_r; lra.
Qed.

(** X12: feature records with sentiment scores in [0,1] and emotion scores
    that are not negative give sentiment ratios and emotion ratios in
    [0,1]. *)
Theorem bounded_records_unit_ratios (analyses : list analysis) :
  Forall bounded_record analyses ->
  unit_ratios (normalize (aggregate analyses)).
Proof.
  intros B. unfold unit_ratios, unit_interval.
  assert (S : forall p,
             analyses <> [] ->
             0 <= score_sum p analyses / count_of analyses
             /\ score_sum p analyses / count_of analyses <= 1).
  { intros p NE. destruct (score_sum_bounds p analyses B) as [L U].
    pose proof (count_positive analyses NE).
    split; [apply Qle_shift_div_l | apply Qle_shift_div_r]; lra. }
  destruct analyses as [|a0 rest] eqn:EA.
  { cbn. repeat split; try lra; intros emotion; cbn; lra. }
  rewrite <- EA in *.
  assert (NE : analyses <> []) by (rewrite EA; discriminate).
  destruct (normalize_sentiment analyses NE) as (P & N & U).
  rewrite P, N, U.
  split; [apply S, NE|]. split; [apply S, NE|]. split; [apply S, NE|].
  intros e. unfold ratio_of, Dict.get_default.
  cbn [normalize emotion_ratios].
  set (d := emotion_totals (aggregate analyses)).
  destruct (in_dec string_dec e (Dict.keys d)) as [I|I].
  - destruct (get_in_keys _ _ I) as [v G].
    assert (V : v == emotion_total e analyses).
    { rewrite <- aggregate_lookup. unfold Dict.get_default. fold d.
      now rewrite G. }
    pose proof (all_items_nonneg analyses B) as A.
    destruct (Qlt_le_dec 0 (py_sum (Dict.values d))) as [T|T].
    + rewrite (normalize_emotions_positive d e v T G).
      assert (L : v <= py_sum (Dict.values d)).
      { unfold d at 1. rewrite aggregate_grand_total, V. unfold grand_total.
        apply (sum_member_le (fun k => emotion_total k analyses)).
        - intros k. now apply item_total_nonneg.
        - unfold d in I. now rewrite aggregate_keys in I. }
      assert (0 <= v) by (rewrite V; now apply item_total_nonneg).
      split; [apply Qle_shift_div_l | apply Qle_shift_div_r]; lra.
    + rewrite (normalize_emotions_uniform d e v T G).
      destruct d as [|item d']; [contradiction I|].
      apply uniform_share.
  - rewrite get_not_in_keys; [lra|].
    now rewrite normalize_emotions_keys.
Qed.

(** ** Dependence on the age *)

Lemma clamp_monotone (x y : Q) : x <= y -> clamp x <= clamp y.
Proof. intros L. unfold clamp, py_max, py_min. by_cases; lra. Qed.

Lemma age_fraction_monotone (a a' : Z) :
  (a <= a')%Z -> inject_Z a / 60 <= inject_Z a' / 60.
Proof.
  intros L. unfold Qdiv. apply Qmult_le_compat_r; [|discriminate].
  rewrite <- Zle_Qle. exact L.
Qed.

Lemma age_factor_monotone (d d' : demographics) :
  (age_of d <= age_of d')%Z -> age_factor d <= age_factor d'.
Proof.
  intros L. apply age_fraction_monotone in L.
  unfold age_factor, age_of, py_min in *.
  destruct (age d), (age d'); by_cases; lra.
Qed.

Lemma age_factor_saturated (d : demographics) :
  (60 <= age_of d)%Z -> age_factor d = 1.
Proof.
  intros L. apply age_fraction_monotone in L.
  change (inject_Z 60 / 60) with (60 / 60) in L.
  assert (O : 60 / 60 == 1) by reflexivity. rewrite O in L.
  unfold age_factor, age_of, py_min in *.
  destruct (age d); (destruct (Qltb _ 1) eqn:E; [|reflexivity]);
    apply Qltb_lt in E; lra.
Qed.

Lemma overall_monotone (r : ratios) (d d' : demographics) :
  age_factor d <= age_factor d' ->
  np_mean (Dict.values (category_scores_of r d))
  <= np_mean (Dict.values (category_scores_of r d')).
Proof.
  intros L. unfold category_scores_of, Dict.values. cbn [map snd].
  rewrite !mean_of_six.
  unfold Qdiv. apply Qmult_le_compat_r; [|discriminate].
  repeat apply Qplus_le_compat;
    try apply Qle_refl; apply clamp_monotone; lra.
Qed.

(** X13: the overall score does not decrease with the age, and from age 60
    on the result of [calculate_eq_scores] no longer depends on the age. *)
Theorem calculate_eq_scores_age (self : AdvancedEQAssessmentModel)
    (analyses : list analysis) (d d' : demographics) :
  (age_of d <= age_of d')%Z ->
  snd (calculate_eq_scores self analyses d)
  <= snd (calculate_eq_scores self analyses d')
  /\ ((60 <= age_of d)%Z ->
      calculate_eq_scores self analyses d
      = calculate_eq_scores self analyses d').
Proof.
  intros L. split.
  - unfold calculate_eq_scores. cbn [snd].
    now apply overall_monotone, age_factor_monotone.
  - intros S.
    assert (A : age_factor d = age_factor d').
    { rewrite !age_factor_saturated; [reflexivity | lia | exact S]. }
    unfold calculate_eq_scores, category_scores_of. now rewrite A.
Qed.

(** ** Sums over rearranged lists *)

Lemma sum_permutation {A : Type} (f : A -> Q) (l l' : list A) :
  Permutation l l' ->
  fold_right Qplus 0 (map f l) == fold_right Qplus 0 (map f l').
Proof.
  induction 1 as [|a l l' _ IH|a b l|l l1 l2 _ IH1 _ IH2];
    cbn [map fold_right].
  - reflexivity.
  - lra.
  - lra.
  - now rewrite IH1.
Qed.

End ScoringFacts.

(** ** Feature extraction *)

Section ExtractorFacts.

Variable float_of_text : string -> option Q.
Variable text_of_value : pyval -> string.

Lemma py_float_number (v : pyval) :
  is_number v = true -> exists q, py_float float_of_text v = Returns q.
Proof.
  destruct v; cbn [is_number py_float]; try discriminate; intros H.
  - now eexists.
  - rewrite H. now eexists.
  - now eexists.
Qed.

Lemma absorb_record_total (d : Dict.t Q) (entries : list (string * pyval)) :
  is_result entries = true ->
  exists d', absorb_record float_of_text d entries = Returns d'.
Proof.
  unfold is_result, absorb_record. intros H.
  apply andb_true_iff in H as [T N].
  destruct (Dict.get_default "label" (PStr "") entries);
    try discriminate T.
  cbn [method_case bind].
  destruct (Text.truthy (Text.lower s)); [|now eexists].
  destruct (py_float_number _ N) as [q ->]. cbn [bind]. now eexists.
Qed.

Lemma pair_score_total (v : pyval) :
  documented_pair_score v = true ->
  exists q, pair_score float_of_text v = Returns q.
Proof.
  destruct v; cbn [documented_pair_score pair_score]; intros H;
    try apply (py_float_number _ H);
    cbn [py_float try_except]; try (now eexists).
  destruct (float_of_text s); cbn [try_except]; now eexists.
Qed.

Lemma absorb_item_total (d : Dict.t Q) (item : pyval) :
  documented_item item = true ->
  exists d', absorb_item float_of_text text_of_value d item = Returns d'.
Proof.
  destruct item; cbn [documented_item absorb_item]; intros H;
    try (now eexists); try (now apply absorb_record_total).
  all: destruct (2 <=? List.length items)%nat; [|now eexists].
  all: destruct (pair_score_total _ H) as [q ->]; cbn [bind].
  all: match goal with
       | |- context [if ?b then _ else _] => destruct b
       end; now eexists.
Qed.

Lemma absorb_items_total (items : list pyval) (d : Dict.t Q) :
  forallb documented_item items = true ->
  exists d', absorb_items float_of_text text_of_value d items = Returns d'.
Proof.
  revert d. induction items as [|item items IH]; intros d H.
  - now eexists.
  - cbn [forallb] in H. apply andb_true_iff in H as [Hi Hr].
    cbn [absorb_items].
    destruct (absorb_item_total d item Hi) as [d1 ->]. cbn [bind].
    apply IH, Hr.
Qed.

Lemma absorb_entry_total (d : Dict.t Q) (key : string) (value : pyval) :
  documented_value value = true ->
  exists d', absorb_entry float_of_text d key value = Returns d'.
Proof.
  destruct value; cbn [documented_value absorb_entry]; intros H;
    try (now eexists).
  - destruct (py_float_number _ H) as [q ->]. cbn [bind]. now eexists.
  - destruct (Dict.get "score" entries) as [score|]; [|now eexists].
    destruct (py_float_number _ H) as [q ->]. cbn [bind]. now eexists.
Qed.

Lemma absorb_entries_total (entries : list (string * pyval)) (d : Dict.t Q) :
  forallb (fun entry => documented_value (snd entry)) entries = true ->
  exists d', absorb_entries float_of_text d entries = Returns d'.
Proof.
  revert d. induction entries as [|[key value] entries IH]; intros d H.
  - now eexists.
  - cbn [forallb snd] in H. apply andb_true_iff in H as [Hv Hr].
    cbn [absorb_entries].
    destruct (absorb_entry_total d key value Hv) as [d1 ->]. cbn [bind].
    apply IH, Hr.
Qed.

Lemma convert_emotions_total (results : pyval) :
  documented_emotion results = true ->
  exists d, convert_emotions float_of_text text_of_value results = Returns d.
Proof.
  unfold convert_emotions. intros H.
  destruct (truthy results); [|now eexists].
  destruct results; cbn [documented_emotion] in H; try (now eexists).
  - now apply absorb_items_total.
  - destruct (Dict.mem "label" entries).
    + now apply absorb_record_total.
    + now apply absorb_entries_total.
Qed.

Lemma standard_label_cases (label : string) :
  In (standard_label label) ["POSITIVE"; "NEGATIVE"; "NEUTRAL"].
Proof.
  unfold standard_label.
  repeat match goal with
         | |- context [if ?b then _ else _] => destruct b
         end; cbn; auto.
Qed.

Lemma sentiment_fields (raw : pyval) :
  documented_sentiment raw = true ->
  exists entries,
    select_sentiment raw = PDict entries
    /\ is_result entries = true
    /\ (unrecognized_sentiment raw = true ->
        entries = [("label", PStr "NEUTRAL"); ("score", PFloat (1 # 2))]).
Proof.
  intros H.
  destruct raw as [| | | | |items|items|entries];
    try (eexists; repeat split; reflexivity).
  - destruct items as [|first rest];
      [eexists; repeat split; reflexivity|].
    destruct first; try discriminate H.
    exists entries. repeat split; [exact H | discriminate].
  - exists entries. repeat split; [exact H | discriminate].
Qed.

Lemma sentiment_label_text (entries : list (string * pyval)) :
  is_result entries = true ->
  exists s, Dict.get_default "label" (PStr "NEUTRAL") entries = PStr s.
Proof.
  unfold is_result, Dict.get_default. intros H.
  apply andb_true_iff in H as [T _].
  destruct (Dict.get "label" entries) as [v|]; [|now eexists].
  destruct v; try discriminate T. now eexists.
Qed.

Lemma sentiment_score_number (entries : list (string * pyval)) :
  is_result entries = true ->
  exists q,
    py_float float_of_text (Dict.get_default "score" (PFloat (1 # 2)) entries)
    = Returns q.
Proof.
  unfold is_result, Dict.get_default. intros H.
  apply andb_true_iff in H as [_ N].
  destruct (Dict.get "score" entries) as [v|]; [|now eexists].
  now apply py_float_number.
Qed.

(** Totality on the well-typed outputs: there [analyze_single_response]
    returns a feature record and does not raise.  The sentiment output may be
    a result, a list starting with a result, or any unrecognised value, which
    yields the pair NEUTRAL, 0.5; the emotion classifier may return a list of
    records or pairs, a single record, a label-keyed mapping or any other
    value, or raise, in which case the emotion mapping is empty and the
    primary emotion absent. *)
Theorem analyze_single_response_total (self : AdvancedEQAssessmentModel)
    (text : string) (raw : pyval) :
  sentiment_pipeline self text = Returns raw ->
  documented_sentiment raw = true ->
  (forall results,
      emotion_pipeline self text = Returns results ->
      documented_emotion results = true) ->
  exists a,
    analyze_single_response float_of_text text_of_value self text = Returns a
    /\ In (sentiment_label a) ["POSITIVE"; "NEGATIVE"; "NEUTRAL"]
    /\ (unrecognized_sentiment raw = true ->
        sentiment_label a = "NEUTRAL" /\ sentiment_score a = (1 # 2)%Q)
    /\ (forall e,
           emotion_pipeline self text = Raises e ->
           emotion_scores a = []
           /\ primary_emotion a = None
           /\ primary_emotion_score a = 0%Q).
Proof.
  intros Hs Hd He.
  unfold analyze_single_response. rewrite Hs. cbn [bind].
  destruct (sentiment_fields raw Hd) as (entries & Sel & R & U).
  rewrite Sel. cbn [method_get bind].
  destruct (sentiment_label_text entries R) as [s Ls].
  destruct (sentiment_score_number entries R) as [q Sq].
  rewrite Ls, Sq. cbn [method_case bind].
  assert (D : unrecognized_sentiment raw = true ->
              standard_label (Text.upper s) = "NEUTRAL" /\ q = (1 # 2)%Q).
  { intros Hu. rewrite (U Hu) in Ls, Sq.
    cbv in Ls. injection Ls as <-. cbv in Sq. injection Sq as <-.
    split; reflexivity. }
  destruct (emotion_pipeline self text) as [results|e] eqn:Ee;
    cbn [try_except bind].
  - destruct (convert_emotions_total results (He results eq_refl)) as [d ->].
    cbn [bind]. destruct (find_primary d) as [p ps].
    eexists. split; [reflexivity|].
    cbn [sentiment_label sentiment_score emotion_scores primary_emotion
         primary_emotion_score].
    split; [apply standard_label_cases|].
    split; [exact D | intros e; discriminate].
  - cbn. eexists. split; [reflexivity|].
    cbn [sentiment_label sentiment_score emotion_scores primary_emotion
         primary_emotion_score].
    split; [apply standard_label_cases|].
    split; [exact D | intros _ _; repeat split].
Qed.

(** Outside the documented outputs the conversions are not guarded: a
    result whose label is not a string, or a list whose first element is not
    a result, makes the call raise. *)
Remark analyze_single_response_undocumented :
  analyze_single_response float_of_text text_of_value
    (init (fun _ => Returns (PList [PStr "POSITIVE"])) (fun _ => Returns PNone))
    "text"
  = Raises AttributeError
  /\ analyze_single_response float_of_text text_of_value
       (init (fun _ => Returns (PDict [("label", PNone)]))
             (fun _ => Returns PNone))
       "text"
     = Raises AttributeError.
Proof. split; reflexivity. Qed.

(** C6, the failing inputs: [analyze_single_response] does raise on malformed
    classifier results.  When the emotion classifier returns the record list
    [[{'label': 'joy', 'score': None}]] the unguarded [float(score)] raises
    TypeError, while the same label and score given as the pair
    [('joy', None)] are absorbed with score 0.0 by the guarded conversion of
    the pair branch; when the sentiment classifier returns
    [[{'label': None, 'score': 0.99}]] or a list whose first element is no
    result, the label is read and upper-cased without a check and
    AttributeError is raised.  Only an unrecognised top-level sentiment value
    and an exception of the emotion classifier degrade to the defaults. *)
Theorem analyze_single_response_unguarded (text : string) :
  let good_sentiment := fun _ : string =>
    Returns (PList [PDict [("label", PStr "POSITIVE");
                           ("score", PFloat (99 # 100))]]) in
  let good_emotion := fun _ : string =>
    Returns (PList [PDict [("label", PStr "joy");
                           ("score", PFloat (9 # 10))]]) in
  analyze_single_response float_of_text text_of_value
    (init good_sentiment
       (fun _ => Returns (PList [PDict [("label", PStr "joy");
                                        ("score", PNone)]])))
    text
  = Raises TypeError
  /\ analyze_single_response float_of_text text_of_value
       (init good_sentiment
          (fun _ => Returns (PList [PTuple [PStr "joy"; PNone]])))
       text
     = Returns {| sentiment_label := "POSITIVE";
                  sentiment_score := 99 # 100;
                  emotion_scores := [("joy", 0%Q)];
                  primary_emotion := Some "joy";
                  primary_emotion_score := 0 |}
  /\ analyze_single_response float_of_text text_of_value
       (init (fun _ => Returns (PList [PDict [("label", PNone);
                                              ("score", PFloat (99 # 100))]]))
          good_emotion)
       text
     = Raises AttributeError
  /\ analyze_single_response float_of_text text_of_value
       (init (fun _ => Returns (PList [PNone])) good_emotion) text
     = Raises AttributeError
  /\ analyze_single_response float_of_text text_of_value
       (init (fun _ => Returns PNone)
          (fun _ => Raises (OtherException "RuntimeError")))
       text
     = Returns {| sentiment_label := "NEUTRAL";
                  sentiment_score := 1 # 2;
                  emotion_scores := [];
                  primary_emotion := None;
                  primary_emotion_score := 0 |}.
Proof.
  cbv zeta. repeat split; vm_compute; reflexivity.
Qed.

End ExtractorFacts.

Lemma analyze_single_response_total_witness :
  exists a,
    analyze_single_response (fun _ => None) (fun _ => "value") quiet_model
      "I would stay calm and listen to the student before I answer"
    = Returns a
    /\ sentiment_label a = "NEUTRAL"
    /\ sentiment_score a = (1 # 2)%Q
    /\ emotion_scores a = []
    /\ primary_emotion a = None.
Proof.
  destruct (analyze_single_response_total (fun _ => None) (fun _ => "value")
              quiet_model
              "I would stay calm and listen to the student before I answer"
              PNone eq_refl eq_refl)
    as (a & R & _ & U & E).
  - intros results H. discriminate H.
  - exists a. split; [exact R|].
    destruct (U eq_refl) as (L & S).
    destruct (E (OtherException "RuntimeError") eq_refl) as (M & P & _).
    repeat split; assumption.
Defined.

(** * Further properties *)

(** ** Stripping and splitting *)

Lemma lstrip_starts_clean (s : string) : starts_clean (Text.lstrip s) = true.
Proof.
  induction s as [|c s IH]; cbn [Text.lstrip]; [reflexivity|].
  destruct (Text.is_space c) eqn:E; [exact IH|].
  cbn [starts_clean]. now rewrite E.
Qed.

Lemma lstrip_clean (s : string) : starts_clean s = true -> Text.lstrip s = s.
Proof.
  destruct s as [|c s]; cbn [starts_clean Text.lstrip]; [reflexivity|].
  intros H. apply negb_true_iff in H. now rewrite H.
Qed.

Lemma rstrip_starts_clean (s : string) :
  starts_clean s = true -> starts_clean (Text.rstrip s) = true.
Proof.
  destruct s as [|c s]; cbn [starts_clean Text.rstrip]; [reflexivity|].
  intros H. apply negb_true_iff in H. rewrite H. cbn [andb starts_clean].
  now rewrite H.
Qed.

Lemma rstrip_idempotent (s : string) :
  Text.rstrip (Text.rstrip s) = Text.rstrip s.
Proof.
  induction s as [|c s IH]; cbn [Text.rstrip]; [reflexivity|].
  destruct (Text.is_space c && negb (Text.truthy (Text.rstrip s))) eqn:E.
  - reflexivity.
  - cbn [Text.rstrip]. rewrite IH, E. reflexivity.
Qed.

Lemma strip_starts_clean (s : string) : starts_clean (Text.strip s) = true.
Proof. apply rstrip_starts_clean, lstrip_starts_clean. Qed.

Lemma strip_idempotent (s : string) :
  Text.strip (Text.strip s) = Text.strip s.
Proof.
  unfold Text.strip.
  rewrite (lstrip_clean (Text.rstrip (Text.lstrip s))).
  - apply rstrip_idempotent.
  - apply rstrip_starts_clean, lstrip_starts_clean.
Qed.

Lemma no_space_snoc (word : string) (c : ascii) :
  no_space word = true -> Text.is_space c = false ->
  no_space (word ++ String c EmptyString) = true.
Proof.
  intros W C. induction word as [|x word IH]; cbn [append no_space] in *.
  - now rewrite C.
  - apply andb_true_iff in W as [X W]. now rewrite X, IH.
Qed.

Lemma truthy_snoc (word : string) (c : ascii) :
  Text.truthy (word ++ String c EmptyString) = true.
Proof. destruct word; reflexivity. Qed.

Lemma split_from_words (s word : string) :
  no_space word = true ->
  Forall (fun w => Text.truthy w = true /\ no_space w = true)
    (Text.split_from word s).
Proof.
  revert word. induction s as [|c s IH]; intros word W;
    cbn [Text.split_from].
  - unfold Text.flush. destruct (Text.truthy word) eqn:T; repeat constructor;
      assumption.
  - destruct (Text.is_space c) eqn:C.
    + apply Forall_app. split; [|now apply IH].
      unfold Text.flush. destruct (Text.truthy word) eqn:T;
        repeat constructor; assumption.
    + apply IH. now apply no_space_snoc.
Qed.

Lemma split_from_started (s word : string) :
  Text.truthy word = true -> Text.split_from word s <> [].
Proof.
  revert word. induction s as [|c s IH]; intros word T;
    cbn [Text.split_from].
  - unfold Text.flush. rewrite T. discriminate.
  - destruct (Text.is_space c).
    + unfold Text.flush. rewrite T. discriminate.
    + apply IH, truthy_snoc.
Qed.

(** Every word [str.split()] returns is non-empty and free of
    whitespace, for every string. *)
Theorem split_words_clean (s : string) :
  Forall (fun w => Text.truthy w = true /\ no_space w = true) (Text.split s).
Proof. unfold Text.split. now apply split_from_words. Qed.

(** X1: a response that passes the emptiness check has at least one word, so
    the "too short" message never reports zero words. *)
Theorem word_count_positive (response : string) :
  is_blank response = false -> 1 <= word_count response.
Proof.
  unfold is_blank, word_count. intros B.
  apply orb_false_iff in B as [_ B]. apply negb_false_iff in B.
  pose proof (strip_starts_clean response) as C.
  destruct (Text.strip response) as [|c t]; [discriminate|].
  cbn [starts_clean] in C. apply negb_true_iff in C.
  unfold Text.split. cbn [Text.split_from]. rewrite C.
  pose proof (split_from_started t (EmptyString ++ String c EmptyString)
                eq_refl) as N.
  destruct (Text.split_from (EmptyString ++ String c EmptyString) t);
    [contradiction | cbn [List.length]; lia].
Qed.

Lemma word_count_positive_witness : 1 <= word_count "  calm  ".
Proof. apply word_count_positive. vm_compute. reflexivity. Defined.

(** ** Validation *)

Lemma validate_from_outcome (self : AdvancedEQAssessmentModel)
    (responses : list string) (i : Z) :
  (forallb (acceptable self) responses = true
   /\ validate_from self i responses = (true, None))
  \/ (forallb (acceptable self) responses = false
      /\ exists message,
          validate_from self i responses = (false, Some message)).
Proof.
  revert i. induction responses as [|r responses IH]; intros i;
    cbn [forallb validate_from].
  - left. split; reflexivity.
  - unfold acceptable at 1 3.
    destruct (is_blank r); cbn [negb andb].
    + right. split; [reflexivity | now eexists].
    + destruct (word_count r <? min_words_per_response self);
        cbn [negb andb].
      * right. split; [reflexivity | now eexists].
      * apply IH.
Qed.

(** X2: [validate_responses] answers [(True, None)] exactly when every
    response is non-blank and long enough; otherwise it answers [False]
    together with a message.  It never reports success with a message or
    failure without one. *)
Theorem validate_responses_outcome (self : AdvancedEQAssessmentModel)
    (responses : list string) :
  (forallb (acceptable self) responses = true
   /\ validate_responses self responses = (true, None))
  \/ (forallb (acceptable self) responses = false
      /\ exists message,
          validate_responses self responses = (false, Some message)).
Proof. apply validate_from_outcome. Qed.

Lemma is_blank_strip (response : string) :
  is_blank (Text.strip response) = is_blank response.
Proof.
  unfold is_blank. rewrite strip_idempotent.
  destruct response as [|c t]; [reflexivity|].
  cbn [Text.truthy negb orb].
  now destruct (Text.truthy (Text.strip (String c t))).
Qed.

Lemma word_count_strip (response : string) :
  word_count (Text.strip response) = word_count response.
Proof. unfold word_count. now rewrite strip_idempotent. Qed.

Lemma validate_from_strip (self : AdvancedEQAssessmentModel)
    (responses : list string) (i : Z) :
  validate_from self i (map Text.strip responses)
  = validate_from self i responses.
Proof.
  revert i. induction responses as [|r responses IH]; intros i;
    cbn [map validate_from]; [reflexivity|].
  now rewrite is_blank_strip, word_count_strip, IH.
Qed.

(** X3: stripping is idempotent, and validation does not depend on
    whitespace around the responses: validating the stripped responses (as
    the view does) gives the same result, message included, as validating
    the raw ones. *)
Theorem validate_responses_strip (self : AdvancedEQAssessmentModel)
    (responses : list string) :
  (forall s, Text.strip (Text.strip s) = Text.strip s)
  /\ validate_responses self (map Text.strip responses)
     = validate_responses self responses.
Proof.
  split; [apply strip_idempotent | apply validate_from_strip].
Qed.

(** ** Letter case *)

Lemma lower_char_idempotent (c : ascii) :
  Text.lower_char (Text.lower_char c) = Text.lower_char c.
Proof.
  destruct c as [b0 b1 b2 b3 b4 b5 b6 b7].
  destruct b0, b1, b2, b3, b4, b5, b6, b7; vm_compute; reflexivity.
Qed.

Lemma lower_idempotent (s : string) : Text.lower (Text.lower s) = Text.lower s.
Proof.
  unfold Text.lower.
  induction s as [|c s IH]; cbn [Text.map_chars]; [reflexivity|].
  now rewrite lower_char_idempotent, IH.
Qed.

Lemma lower_append (a b : string) :
  Text.lower (a ++ b) = Text.lower a ++ Text.lower b.
Proof.
  unfold Text.lower.
  induction a as [|c a IH]; cbn [append Text.map_chars]; [reflexivity|].
  now rewrite IH.
Qed.

(** X4: a profession that contains a keyword of the first group (teacher,
    lecturer, educator) in any letter case, anywhere, gets the teacher
    scenario, whatever else it contains. *)
Theorem generate_scenario_teacher_group (self : AdvancedEQAssessmentModel)
    (age : Z) (gender before keyword after : string) :
  In (Text.lower keyword) ["teacher"; "lecturer"; "educator"] ->
  generate_scenario self age gender (before ++ keyword ++ after)
  = teacher_scenario.
Proof.
  intros K. unfold generate_scenario.
  rewrite !lower_append.
  pose proof (contains_append (Text.lower keyword) (Text.lower before)
                (Text.lower after)) as C.
  destruct K as [K|[K|[K|[]]]]; rewrite <- K in C; rewrite <- K, C;
    rewrite ?orb_true_r; reflexivity.
Qed.

Lemma generate_scenario_teacher_group_witness :
  generate_scenario quiet_model 41 "other"
    ("Nurse and part-time " ++ "LECTURER" ++ " (team lead)")
  = teacher_scenario.
Proof.
  apply generate_scenario_teacher_group. vm_compute. tauto.
Defined.

(** ** Feature records *)

Section RecordFacts.

Variable float_of_text : string -> option Q.
Variable text_of_value : pyval -> string.

Lemma tidy_nil : tidy [].
Proof. split; constructor. Qed.

Lemma tidy_set (d : Dict.t Q) (k : string) (v : Q) :
  tidy d -> Text.lower k = k -> tidy (Dict.set k v d).
Proof.
  intros [N L] K. unfold tidy, lowercase_keys. rewrite keys_set.
  destruct (Dict.mem k d) eqn:M; [split; assumption|].
  split.
  - apply NoDup_app; [exact N | repeat constructor; intros [] |].
    intros x I [<-|[]].
    apply mem_in_keys in I. congruence.
  - apply Forall_app. split; [exact L | repeat constructor; exact K].
Qed.

Ltac returned H :=
  repeat match type of H with
    | bind ?m _ = Returns _ =>
        let E := fresh "E" in
        destruct m eqn:E; cbn [bind] in H; [|discriminate H]
    | (if ?b then _ else _) = Returns _ => destruct b eqn:?
    | Returns _ = Returns _ => injection H as H
    end.

Lemma absorb_record_tidy (d d' : Dict.t Q) (entries : list (string * pyval)) :
  absorb_record float_of_text d entries = Returns d' -> tidy d -> tidy d'.
Proof.
  unfold absorb_record. intros H T.
  destruct (Dict.get_default "label" (PStr "") entries);
    cbn [method_case bind] in H; try discriminate H.
  returned H; subst d'; [|exact T].
  apply tidy_set; [exact T | apply lower_idempotent].
Qed.

Lemma absorb_item_tidy (d d' : Dict.t Q) (item : pyval) :
  absorb_item float_of_text text_of_value d item = Returns d' ->
  tidy d -> tidy d'.
Proof.
  intros H T.
  destruct item; cbn [absorb_item] in H;
    try (injection H as <-; exact T);
    try (now apply (absorb_record_tidy d d' entries)).
  all: returned H; subst d'; try exact T.
  all: apply tidy_set; [exact T | apply lower_idempotent].
Qed.

Lemma absorb_items_tidy (items : list pyval) (d d' : Dict.t Q) :
  absorb_items float_of_text text_of_value d items = Returns d' ->
  tidy d -> tidy d'.
Proof.
  revert d. induction items as [|item items IH]; intros d H T;
    cbn [absorb_items] in H.
  - injection H as <-. exact T.
  - destruct (absorb_item float_of_text text_of_value d item) as [d1|] eqn:E;
      cbn [bind] in H; [|discriminate H].
    apply (IH d1 H). now apply (absorb_item_tidy d d1 item).
Qed.

Lemma absorb_entry_tidy (d d' : Dict.t Q) (key : string) (value : pyval) :
  absorb_entry float_of_text d key value = Returns d' -> tidy d -> tidy d'.
Proof.
  intros H T.
  destruct value; cbn [absorb_entry] in H;
    try (injection H as <-; exact T).
  4: destruct (Dict.get "score" entries);
       [|injection H as <-; exact T].
  all: returned H; subst d'.
  all: apply tidy_set; [exact T | apply lower_idempotent].
Qed.

Lemma absorb_entries_tidy (entries : list (string * pyval))
    (d d' : Dict.t Q) :
  absorb_entries float_of_text d entries = Returns d' -> tidy d -> tidy d'.
Proof.
  revert d. induction entries as [|[key value] entries IH]; intros d H T;
    cbn [absorb_entries] in H.
  - injection H as <-. exact T.
  - destruct (absorb_entry float_of_text d key value) as [d1|] eqn:E;
      cbn [bind] in H; [|discriminate H].
    apply (IH d1 H). now apply (absorb_entry_tidy d d1 key value).
Qed.

Lemma convert_emotions_tidy (results : pyval) (d : Dict.t Q) :
  convert_emotions float_of_text text_of_value results = Returns d -> tidy d.
Proof.
  unfold convert_emotions. intros H.
  destruct (truthy results); [|injection H as <-; apply tidy_nil].
  destruct results; try (injection H as <-; apply tidy_nil).
  - apply (absorb_items_tidy _ _ _ H tidy_nil).
  - destruct (Dict.mem "label" entries).
    + apply (absorb_record_tidy _ _ _ H tidy_nil).
    + apply (absorb_entries_tidy _ _ _ H tidy_nil).
Qed.

Lemma get_of_entry (d : Dict.t Q) (k : string) (v : Q) :
  NoDup (Dict.keys d) -> In (k, v) d -> Dict.get k d = Some v.
Proof.
  induction d as [|[k' v'] d IH]; intros N I; [contradiction|].
  cbn [Dict.keys map fst] in N. inversion N as [|? ? Nk Nd]; subst.
  cbn [Dict.get]. destruct I as [I|I].
  - injection I as -> ->. now rewrite String.eqb_refl.
  - destruct (String.eqb k k') eqn:E; [|now apply IH].
    apply String.eqb_eq in E. subst k'. exfalso. apply Nk.
    apply in_map_iff. now exists (k, v).
Qed.

Lemma arg_max_greatest (rest : Dict.t Q) (best : string) (best_score : Q) :
  exists score,
    ((arg_max best best_score rest, score) = (best, best_score)
     \/ In (arg_max best best_score rest, score) rest)
    /\ (best_score <= score)%Q
    /\ Forall (fun item : string * Q => (snd item <= score)%Q) rest.
Proof.
  revert best best_score.
  induction rest as [|[k v] rest IH]; intros best best_score; cbn [arg_max].
  - exists best_score. split; [now left|]. split; [apply Qle_refl|constructor].
  - destruct (Qltb best_score v) eqn:E.
    + apply Qltb_lt in E.
      destruct (IH k v) as (score & W & L & F).
      exists score. split; [|split].
      * right. destruct W as [W|W]; [left; now symmetry | right; exact W].
      * apply Qle_trans with v; [apply Qlt_le_weak, E | exact L].
      * constructor; [exact L | exact F].
    + apply Qltb_ge in E.
      destruct (IH best best_score) as (score & W & L & F).
      exists score. split; [|split].
      * destruct W as [W|W]; [left; exact W | right; right; exact W].
      * exact L.
      * constructor; [|exact F]. cbn [snd].
        apply Qle_trans with best_score; assumption.
Qed.

Lemma find_primary_greatest (d : Dict.t Q) (p : option string) (ps : Q) :
  NoDup (Dict.keys d) ->
  find_primary d = (p, ps) ->
  (d = [] -> p = None /\ ps = 0%Q)
  /\ (d <> [] ->
      exists k, p = Some k
                /\ Dict.get k d = Some ps
                /\ Forall (fun item : string * Q => (snd item <= ps)%Q) d).
Proof.
  intros N H. destruct d as [|[k v] rest].
  - injection H as <- <-. split; [now split | intros C; now contradiction C].
  - split; [discriminate|]. intros _. cbn [find_primary] in H.
    injection H as <- <-.
    destruct (arg_max_greatest rest k v) as (score & W & L & F).
    assert (I : In (arg_max k v rest, score) ((k, v) :: rest)).
    { destruct W as [W|W]; [left; now symmetry | now right]. }
    pose proof (get_of_entry _ _ _ N I) as G.
    exists (arg_max k v rest). unfold Dict.get_default. rewrite G.
    repeat split. constructor; [exact L | exact F].
Qed.

(** X5: every feature record [analyze_single_response] returns has a
    sentiment label among POSITIVE, NEGATIVE and NEUTRAL, and an emotion
    mapping whose keys are lower-case and pairwise different, whatever the
    classifiers returned. *)
Theorem analyze_single_response_record (self : AdvancedEQAssessmentModel)
    (text : string) (a : analysis) :
  analyze_single_response float_of_text text_of_value self text = Returns a ->
  In (sentiment_label a) ["POSITIVE"; "NEGATIVE"; "NEUTRAL"]
  /\ NoDup (Dict.keys (emotion_scores a))
  /\ lowercase_keys (emotion_scores a).
Proof.
  unfold analyze_single_response. intros H.
  returned H.
  match type of H with
  | context [find_primary ?d] => destruct (find_primary d) as [p ps] eqn:F
  end.
  injection H as <-.
  cbn [sentiment_label emotion_scores].
  split; [apply standard_label_cases|].
  eapply convert_emotions_tidy. eassumption.
Qed.

(** X6: in every feature record [analyze_single_response] returns, the
    primary emotion is absent (with score 0.0) when the emotion mapping is
    empty; otherwise it is a key of the mapping, the primary score is the
    score stored under it, and no emotion has a greater score. *)
Theorem analyze_single_response_primary (self : AdvancedEQAssessmentModel)
    (text : string) (a : analysis) :
  analyze_single_response float_of_text text_of_value self text = Returns a ->
  (emotion_scores a = [] ->
   primary_emotion a = None /\ primary_emotion_score a = 0%Q)
  /\ (emotion_scores a <> [] ->
      exists k,
        primary_emotion a = Some k
        /\ Dict.get k (emotion_scores a) = Some (primary_emotion_score a)
        /\ Forall (fun item : string * Q =>
                     (snd item <= primary_emotion_score a)%Q)
             (emotion_scores a)).
Proof.
  unfold analyze_single_response. intros H.
  returned H.
  match type of H with
  | context [find_primary ?d] => destruct (find_primary d) as [p ps] eqn:F
  end.
  injection H as <-.
  cbn [emotion_scores primary_emotion primary_emotion_score].
  apply find_primary_greatest; [|exact F].
  eapply convert_emotions_tidy. eassumption.
Qed.

(** ** Batches of responses *)

Lemma analyze_responses_each (self : AdvancedEQAssessmentModel)
    (responses : list string) (analyses : list analysis) :
  analyze_responses float_of_text text_of_value self responses
  = Returns analyses
  <-> Forall2
        (fun response a =>
           analyze_single_response float_of_text text_of_value self response
           = Returns a)
        responses analyses.
Proof.
  revert analyses. induction responses as [|r responses IH]; intros analyses;
    cbn [analyze_responses].
  - split.
    + intros H. injection H as <-. constructor.
    + intros H. inversion H. reflexivity.
  - split.
    + intros H. returned H. subst analyses.
      constructor; [assumption | now apply IH].
    + intros H. inversion H as [|? a ? rest Ha Hrest]; subst.
      rewrite Ha. cbn [bind].
      apply IH in Hrest. rewrite Hrest. reflexivity.
Qed.

Lemma analyze_responses_aborts (self : AdvancedEQAssessmentModel)
    (before after : list string) (response : string) (e : pyexn) :
  Forall (fun r =>
            exists a,
              analyze_single_response float_of_text text_of_value self r
              = Returns a) before ->
  analyze_single_response float_of_text text_of_value self response
  = Raises e ->
  analyze_responses float_of_text text_of_value self
    (before ++ response :: after)
  = Raises e.
Proof.
  intros B R. induction B as [|r before [a Ha] _ IH];
    cbn [app analyze_responses].
  - now rewrite R.
  - now rewrite Ha, IH.
Qed.

(** X7: [analyze_responses] returns exactly when every response is
    analysed, and then gives one feature record per response, in order, each
    the analysis of its response. *)
Theorem analyze_responses_in_order (self : AdvancedEQAssessmentModel)
    (responses : list string) (analyses : list analysis) :
  analyze_responses float_of_text text_of_value self responses
  = Returns analyses ->
  List.length analyses = List.length responses
  /\ forall i response,
      nth_error responses i = Some response ->
      exists a,
        nth_error analyses i = Some a
        /\ analyze_single_response float_of_text text_of_value self response
           = Returns a.
Proof.
  intros H. apply analyze_responses_each in H.
  split.
  - symmetry. eapply Forall2_length. exact H.
  - induction H as [|r a responses analyses Ha _ IH]; intros i response N.
    + destruct i; discriminate N.
    + destruct i as [|i]; cbn [nth_error] in *.
      * injection N as <-. now exists a.
      * now apply IH.
Qed.

(** X8: an error of the sentiment classifier is not absorbed: when it raises
    on a response and all earlier responses were analysed,
    [analyze_responses] raises the same error and returns no record at
    all. *)
Theorem analyze_responses_sentiment_error (self : AdvancedEQAssessmentModel)
    (before after : list string) (response : string) (e : pyexn) :
  Forall (fun r =>
            exists a,
              analyze_single_response float_of_text text_of_value self r
              = Returns a) before ->
  sentiment_pipeline self response = Raises e ->
  analyze_responses float_of_text text_of_value self
    (before ++ response :: after)
  = Raises e.
Proof.
  intros B R. apply analyze_responses_aborts; [exact B|].
  unfold analyze_single_response. now rewrite R.
Qed.



End RecordFacts.

(** ** The summaries of the response view *)

Section ViewFacts.

Local Open Scope Q_scope.

Lemma get_entry_in {V : Type} (d : Dict.t V) (k : string) (v : V) :
  Dict.get k d = Some v -> In (k, v) d.
Proof.
  induction d as [|[k' v'] d IH]; cbn [Dict.get]; [discriminate|].
  destruct (String.eqb k k') eqn:E.
  - apply String.eqb_eq in E. subst k'. intros H. injection H as ->. now left.
  - intros H. right. now apply IH.
Qed.

Lemma count_sentiment_keys (d : Dict.t Q) (a : analysis) :
  Dict.keys (count_sentiment d a) = Dict.keys d.
Proof.
  unfold count_sentiment.
  destruct (Dict.mem (sentiment_label a) d) eqn:M; [|reflexivity].
  now rewrite keys_set, M.
Qed.

Lemma count_sentiment_mem (d : Dict.t Q) (a : analysis) (l : string) :
  Dict.mem l (count_sentiment d a) = Dict.mem l d.
Proof. now rewrite !mem_existsb, count_sentiment_keys. Qed.

Lemma count_sentiment_get (d : Dict.t Q) (a : analysis) (l : string) :
  Dict.get_default l 0 (count_sentiment d a)
  == Dict.get_default l 0 d
     + (if Dict.mem l d && has_label l a then sentiment_score a else 0).
Proof.
  unfold count_sentiment, has_label, Dict.get_default.
  destruct (String.eqb (sentiment_label a) l) eqn:E.
  - apply String.eqb_eq in E. rewrite E.
    destruct (Dict.mem l d) eqn:M; cbn [andb].
    + rewrite get_set_same. reflexivity.
    + lra.
  - rewrite andb_false_r.
    destruct (Dict.mem (sentiment_label a) d); [|lra].
    apply String.eqb_neq in E.
    rewrite get_set_other by congruence. lra.
Qed.

Lemma fold_count_sentiment (analyses : list analysis) (d : Dict.t Q)
    (l : string) :
  Dict.keys (fold_left count_sentiment analyses d) = Dict.keys d
  /\ Dict.get_default l 0 (fold_left count_sentiment analyses d)
     == Dict.get_default l 0 d
        + (if Dict.mem l d then score_sum (has_label l) analyses else 0).
Proof.
  revert d. induction analyses as [|a analyses IH]; intros d;
    cbn [fold_left score_sum fold_right].
  - split; [reflexivity|]. destruct (Dict.mem l d); lra.
  - fold (score_sum (has_label l) analyses).
    destruct (IH (count_sentiment d a)) as [K G].
    rewrite K, G, count_sentiment_keys, count_sentiment_mem,
      count_sentiment_get.
    split; [reflexivity|].
    destruct (Dict.mem l d), (has_label l a); cbn [andb]; lra.
Qed.

Lemma sentiment_counts_total (analyses : list analysis) :
  py_sum (Dict.values (fold_left count_sentiment analyses
                         initial_sentiment_counts))
  == counted_total analyses.
Proof.
  set (d := fold_left count_sentiment analyses initial_sentiment_counts).
  assert (K : Dict.keys d = ["POSITIVE"; "NEGATIVE"; "NEUTRAL"]%string)
    by exact (proj1 (fold_count_sentiment analyses initial_sentiment_counts
                       EmptyString)).
  rewrite py_sum_fold_right, values_sum_keys.
  - rewrite K. cbn [map fold_right]. unfold d, counted_total.
    rewrite (proj2 (fold_count_sentiment analyses _ "POSITIVE")).
    rewrite (proj2 (fold_count_sentiment analyses _ "NEGATIVE")).
    rewrite (proj2 (fold_count_sentiment analyses _ "NEUTRAL")).
    cbn. lra.
  - rewrite K. repeat constructor; cbn; intuition discriminate.
Qed.

(** X15: the sentiment summary of the view always has the keys POSITIVE,
    NEGATIVE, NEUTRAL in this order.  When the counted scores have a positive
    sum, each percentage is the label's share of that sum times 100 and the
    three add up to 100; otherwise each is the fixed 33.3. *)
Theorem sentiment_summary_shares (analyses : list analysis) :
  Dict.keys (sentiment_summary analyses)
  = ["POSITIVE"; "NEGATIVE"; "NEUTRAL"]%string
  /\ (0 < counted_total analyses ->
      py_sum (Dict.values (sentiment_summary analyses)) == 100
      /\ forall l, In l ["POSITIVE"; "NEGATIVE"; "NEUTRAL"]%string ->
           Dict.get_default l 0 (sentiment_summary analyses)
           == score_sum (has_label l) analyses / counted_total analyses * 100)
  /\ (counted_total analyses <= 0 ->
      sentiment_summary analyses = default_sentiment_percent).
Proof.
  unfold sentiment_summary.
  set (d := fold_left count_sentiment analyses initial_sentiment_counts).
  pose proof (sentiment_counts_total analyses) as T. fold d in T.
  assert (K : Dict.keys d = ["POSITIVE"; "NEGATIVE"; "NEUTRAL"]%string)
    by exact (proj1 (fold_count_sentiment analyses initial_sentiment_counts
                       EmptyString)).
  split; [|split].
  - destruct (Qltb 0 (py_sum (Dict.values d))); [|reflexivity].
    now rewrite (keys_map_values (fun v => v / py_sum (Dict.values d) * 100)).
  - intros P. rewrite <- T in P. pose proof P as P'.
    apply Qltb_lt in P'. rewrite P'. split.
    + rewrite py_sum_fold_right. unfold Dict.values at 1.
      rewrite map_map. cbn [snd].
      rewrite <- (map_map snd (fun v => v / py_sum (Dict.values d) * 100)).
      assert (E : forall v, v / py_sum (Dict.values d) * 100
                            == v * (100 / py_sum (Dict.values d)))
        by (intros v; field; lra).
      rewrite (sum_map_equiv _ (fun v => v * (100 / py_sum (Dict.values d))))
        by (intros v _; apply E).
      rewrite sum_scaled. fold (Dict.values d).
      rewrite <- py_sum_fold_right. field. lra.
    + intros l I. unfold Dict.get_default.
      rewrite (get_map_values (fun v => v / py_sum (Dict.values d) * 100)).
      pose proof (proj2 (fold_count_sentiment analyses
                           initial_sentiment_counts l)) as G.
      fold d in G. unfold Dict.get_default in G.
      assert (M : Dict.get l d <> None).
      { rewrite <- K in I. destruct (get_in_keys _ _ I) as [v ->].
        discriminate. }
      destruct (Dict.get l d) as [v|]; [|contradiction].
      cbn [option_map]. rewrite G, T.
      destruct I as [<-|[<-|[<-|[]]]]; cbn; field; rewrite <- T; lra.
  - intros P. rewrite <- T in P. apply Qltb_ge in P. now rewrite P.
Qed.

(** ** Sorting *)

Lemma insert_descending_permutation (item : string * Q)
    (sorted : list (string * Q)) :
  Permutation (insert_descending item sorted) (item :: sorted).
Proof.
  induction sorted as [|next rest IH]; cbn [insert_descending].
  - apply Permutation_refl.
  - destruct (Qltb (snd item) (snd next)); [|apply Permutation_refl].
    apply perm_trans with (next :: item :: rest).
    + now apply perm_skip.
    + apply perm_swap.
Qed.

Lemma sorted_descending_permutation (items : list (string * Q)) :
  Permutation (sorted_descending items) items.
Proof.
  induction items as [|item items IH]; cbn [sorted_descending fold_right].
  - constructor.
  - fold (sorted_descending items).
    apply perm_trans with (item :: sorted_descending items).
    + apply insert_descending_permutation.
    + now apply perm_skip.
Qed.

Lemma insert_descending_sorted (item : string * Q)
    (sorted : list (string * Q)) :
  descending sorted -> descending (insert_descending item sorted).
Proof.
  unfold descending.
  induction sorted as [|next rest IH]; intros S; cbn [insert_descending].
  - repeat constructor.
  - inversion S as [|? ? Srest Fnext]; subst.
    destruct (Qltb (snd item) (snd next)) eqn:E.
    + apply Qltb_lt in E. constructor; [now apply IH|].
      apply (Permutation_Forall
               (Permutation_sym (insert_descending_permutation item rest))).
      constructor; [now apply Qlt_le_weak | exact Fnext].
    + apply Qltb_ge in E. constructor; [exact S|].
      constructor; [exact E|].
      eapply Forall_impl; [|exact Fnext].
      intros x Lx. cbn beta in *. now apply Qle_trans with (snd next).
Qed.

Lemma sorted_descending_sorted (items : list (string * Q)) :
  descending (sorted_descending items).
Proof.
  induction items as [|item items IH]; cbn [sorted_descending fold_right].
  - constructor.
  - now apply insert_descending_sorted.
Qed.

Lemma view_emotion_totals_aggregate (analyses : list analysis) :
  view_emotion_totals analyses = emotion_totals (aggregate analyses).
Proof.
  rewrite aggregate_emotion_totals. unfold view_emotion_totals, all_items.
  generalize (@nil (string * Q)).
  induction analyses as [|a analyses IH]; intros d; cbn [fold_left flat_map].
  - reflexivity.
  - now rewrite fold_left_app, IH.
Qed.

(** X16: the emotion summary of the view is in descending order of
    percentage.  When the grand sum of the emotion totals is positive it has
    one entry per observed emotion, each 100 times the emotion ratio the
    scorer uses, adding up to 100; otherwise it is empty (unlike the scorer,
    which then falls back to uniform ratios). *)
Theorem emotion_summary_shares (analyses : list analysis) :
  descending (emotion_summary analyses)
  /\ (0 < grand_total analyses ->
      Permutation (Dict.keys (emotion_summary analyses))
        (observed_emotions analyses)
      /\ py_sum (Dict.values (emotion_summary analyses)) == 100
      /\ forall e, In e (observed_emotions analyses) ->
           Dict.get e (emotion_summary analyses)
           = Some (ratio_of (normalize (aggregate analyses)) e * 100))
  /\ (grand_total analyses <= 0 -> emotion_summary analyses = []).
Proof.
  unfold emotion_summary. rewrite view_emotion_totals_aggregate.
  set (d := emotion_totals (aggregate analyses)).
  pose proof (aggregate_grand_total analyses) as T. fold d in T.
  pose proof (aggregate_keys analyses) as K. fold d in K.
  split; [apply sorted_descending_sorted|]. split.
  - intros P. rewrite <- T in P. pose proof P as P'.
    apply Qltb_lt in P'. rewrite P'.
    set (pct := map (fun item : string * Q =>
                       (fst item, snd item / py_sum (Dict.values d) * 100)) d).
    pose proof (sorted_descending_permutation pct) as S.
    assert (Kp : Dict.keys pct = observed_emotions analyses).
    { unfold pct.
      now rewrite (keys_map_values
                     (fun v => v / py_sum (Dict.values d) * 100)). }
    split; [|split].
    + rewrite <- Kp. unfold Dict.keys. now apply Permutation_map.
    + rewrite py_sum_fold_right. unfold Dict.values at 1.
      rewrite (sum_permutation snd _ _ S).
      unfold pct. rewrite map_map. cbn [snd].
      rewrite <- (map_map snd (fun v => v / py_sum (Dict.values d) * 100)).
      assert (E : forall v, v / py_sum (Dict.values d) * 100
                            == v * (100 / py_sum (Dict.values d)))
        by (intros v; field; lra).
      rewrite (sum_map_equiv _ (fun v => v * (100 / py_sum (Dict.values d))))
        by (intros v _; apply E).
      rewrite sum_scaled. fold (Dict.values d).
      rewrite <- py_sum_fold_right. field. lra.
    + intros e I. rewrite <- K in I.
      destruct (get_in_keys _ _ I) as [v G].
      unfold ratio_of, Dict.get_default. cbn [normalize emotion_ratios].
      fold d. rewrite (normalize_emotions_positive d e v P G).
      apply get_of_entry.
      * apply (Permutation_NoDup
                 (Permutation_map fst (Permutation_sym S))).
        fold (Dict.keys pct). rewrite Kp. apply observed_nodup.
      * apply (Permutation_in _ (Permutation_sym S)).
        unfold pct. apply in_map_iff. exists (e, v).
        split; [reflexivity | now apply get_entry_in].
  - intros P. rewrite <- T in P. apply Qltb_ge in P. now rewrite P.
Qed.

End ViewFacts.

(** ** The response view *)

Section ViewFlow.

Variable float_of_text : string -> option Q.
Variable text_of_value : pyval -> string.

Lemma sentiment_summary_keys (analyses : list analysis) :
  Dict.keys (sentiment_summary analyses)
  = ["POSITIVE"; "NEGATIVE"; "NEUTRAL"].
Proof.
  unfold sentiment_summary.
  set (d := fold_left count_sentiment analyses initial_sentiment_counts).
  destruct (Qltb 0 (py_sum (Dict.values d))); [|reflexivity].
  rewrite (keys_map_values (fun v => (v / py_sum (Dict.values d) * 100)%Q)).
  exact (proj1 (fold_count_sentiment analyses initial_sentiment_counts
                  EmptyString)).
Qed.

Lemma calculate_eq_scores_pair (self : AdvancedEQAssessmentModel)
    (analyses : list analysis) (d : demographics) :
  calculate_eq_scores self analyses d
  = (category_scores_of (normalize (aggregate analyses)) d,
     np_mean
       (Dict.values (category_scores_of (normalize (aggregate analyses)) d))).
Proof. reflexivity. Qed.

Lemma interpret_overall_eq_levels (self : AdvancedEQAssessmentModel)
    (score : Q) :
  In (interpret_overall_eq self score) ["Low EQ"; "Average EQ"; "High EQ"].
Proof.
  unfold interpret_overall_eq.
  destruct (Qltb score 40); [now left|].
  destruct (Qle_bool score 70); [right; now left | right; right; now left].
Qed.

(** X17: when one of the expected answer fields is missing from the POST
    data or holds only whitespace, the response view renders the error page
    with a message; nothing is analysed or stored. *)
Theorem response_view_post_rejects (self : AdvancedEQAssessmentModel)
    (questions : list string) (session_demographics : option demographics)
    (post : Dict.t string) (i : nat) :
  (i < List.length questions)%nat ->
  is_blank (Dict.get_default (answer_key i) "" post) = true ->
  exists message,
    response_view_post float_of_text text_of_value self questions
      session_demographics post
    = Returns (RenderError (Some message)).
Proof.
  intros I B. unfold response_view_post, validate_responses.
  destruct (validate_from_outcome self (collect_responses post questions) 0)
    as [[A V]|[A [message V]]]; rewrite V.
  - exfalso.
    assert (M : In (Text.strip (Dict.get_default (answer_key i) "" post))
                  (collect_responses post questions)).
    { unfold collect_responses.
      apply (in_map (fun i => Text.strip
                                (Dict.get_default (answer_key i) "" post))).
      apply in_seq. lia. }
    rewrite forallb_forall in A. specialize (A _ M).
    unfold acceptable in A. rewrite is_blank_strip, B in A. discriminate A.
  - now exists message.
Qed.

(** X18: when the response view stores a result, every expected answer
    passed validation, one feature record per question was analysed, the six
    stored category scores and the overall score lie in [0,100], the stored
    level is the interpretation of the stored overall score, and the stored
    emotion percentages are in descending order. *)
Theorem response_view_post_stores (self : AdvancedEQAssessmentModel)
    (questions : list string) (session_demographics : option demographics)
    (post : Dict.t string) (stored : assessment_result) :
  response_view_post float_of_text text_of_value self questions
    session_demographics post
  = Returns (RedirectResult stored) ->
  forallb (acceptable self) (collect_responses post questions) = true
  /\ (exists analyses,
         analyze_responses float_of_text text_of_value self
           (collect_responses post questions) = Returns analyses
         /\ List.length analyses = List.length questions
         /\ result_sentiment_percent stored = sentiment_summary analyses
         /\ result_emotion_percent stored = emotion_summary analyses)
  /\ Dict.keys (result_category_scores stored)
     = ["self_awareness"; "emotional_resilience"; "conflict_resolution";
        "cultural_awareness"; "empathy"; "stress_management"]
  /\ Forall in_range (Dict.values (result_category_scores stored))
  /\ in_range (result_overall_score stored)
  /\ result_eq_level stored
     = interpret_overall_eq self (result_overall_score stored)
  /\ In (result_eq_level stored) ["Low EQ"; "Average EQ"; "High EQ"]
  /\ descending (result_emotion_percent stored).
Proof.
  unfold response_view_post, validate_responses. intros H.
  destruct (validate_from_outcome self (collect_responses post questions) 0)
    as [[A V]|[A [message V]]]; rewrite V in H; [|discriminate H].
  cbn [negb] in H.
  destruct (analyze_responses float_of_text text_of_value self
              (collect_responses post questions)) as [analyses|e] eqn:E;
    cbn [bind] in H; [|discriminate H].
  rewrite calculate_eq_scores_pair in H. cbv beta iota in H.
  match type of H with
  | Returns (RedirectResult ?x) = _ =>
      assert (S : stored = x) by congruence
  end.
  clear H. subst stored.
  cbn [result_category_scores result_overall_score result_eq_level
       result_sentiment_percent result_emotion_percent].
  split; [exact A|]. split.
  { exists analyses. split; [reflexivity|]. split; [|split; reflexivity].
    apply analyze_responses_each in E. apply Forall2_length in E.
    rewrite <- E. unfold collect_responses.
    now rewrite length_map, length_seq. }
  split; [apply category_scores_keys|].
  split; [apply category_scores_in_range|].
  split; [apply overall_in_range|].
  split; [reflexivity|].
  split; [apply interpret_overall_eq_levels|].
  unfold emotion_summary. apply sorted_descending_sorted.
Qed.

End ViewFlow.

(** ** The further properties at sample inputs *)

Section Samples.

Local Open Scope Q_scope.

Lemma analyze_single_response_record_witness :
  In (sentiment_label sample_record) ["POSITIVE"; "NEGATIVE"; "NEUTRAL"]%string
  /\ NoDup (Dict.keys (emotion_scores sample_record))
  /\ lowercase_keys (emotion_scores sample_record).
Proof.
  apply (analyze_single_response_record (fun _ => None) (fun _ => "value"%string)
           sample_model sample_answer sample_record).
  vm_compute. reflexivity.
Defined.

Lemma analyze_single_response_primary_witness :
  exists k,
    primary_emotion sample_record = Some k
    /\ Dict.get k (emotion_scores sample_record)
       = Some (primary_emotion_score sample_record)
    /\ Forall (fun item : string * Q =>
                 snd item <= primary_emotion_score sample_record)
         (emotion_scores sample_record).
Proof.
  apply (proj2 (analyze_single_response_primary
                  (fun _ => None) (fun _ => "value"%string)
                  sample_model sample_answer sample_record eq_refl)).
  discriminate.
Defined.

Lemma analyze_responses_in_order_witness :
  List.length [sample_record; sample_record] = 2%nat.
Proof.
  apply (proj1 (analyze_responses_in_order
                  (fun _ => None) (fun _ => "value"%string) sample_model
                  [sample_answer; sample_answer]
                  [sample_record; sample_record] eq_refl)).
Defined.


Lemma analyze_responses_sentiment_error_witness :
  analyze_responses (fun _ => None) (fun _ => "value"%string) fragile_model
    [sample_answer; EmptyString; sample_answer]
  = Raises (OtherException "ValueError").
Proof.
  apply (analyze_responses_sentiment_error
           (fun _ => None) (fun _ => "value"%string) fragile_model
           [sample_answer] [sample_answer] EmptyString).
  - repeat constructor. eexists. vm_compute. reflexivity.
  - reflexivity.
Defined.

Lemma emotion_ratios_total_witness :
  py_sum (Dict.values (emotion_ratios (normalize (aggregate sample_analyses))))
  == 1
  /\ py_sum (Dict.values
               (emotion_ratios (normalize (aggregate silent_analyses)))) == 1
  /\ emotion_ratios (normalize (aggregate [neutral_record (1 # 2)])) = [].
Proof.
  split; [|split].
  - apply (proj1 (emotion_ratios_total sample_analyses)).
    vm_compute. discriminate.
  - apply (proj1 (emotion_ratios_total silent_analyses)).
    vm_compute. discriminate.
  - apply (proj2 (emotion_ratios_total [neutral_record (1 # 2)])).
    reflexivity.
Defined.

Lemma sentiment_ratios_total_witness :
  positive_ratio (normalize (aggregate sample_analyses))
  + negative_ratio (normalize (aggregate sample_analyses))
  + neutral_ratio (normalize (aggregate sample_analyses))
  == score_sum (fun _ => true) sample_analyses / count_of sample_analyses.
Proof.
  apply (sentiment_ratios_total sample_analyses). discriminate.
Defined.

Lemma bounded_records_unit_ratios_witness :
  unit_ratios (normalize (aggregate sample_analyses)).
Proof.
  apply bounded_records_unit_ratios.
  repeat constructor; cbn; lra.
Defined.

Lemma calculate_eq_scores_age_witness :
  snd (calculate_eq_scores quiet_model sample_analyses (with_age (Some 30%Z)))
  <= snd (calculate_eq_scores quiet_model sample_analyses
            (with_age (Some 45%Z)))
  /\ calculate_eq_scores quiet_model sample_analyses (with_age (Some 60%Z))
     = calculate_eq_scores quiet_model sample_analyses (with_age (Some 95%Z)).
Proof.
  split.
  - apply (proj1 (calculate_eq_scores_age quiet_model sample_analyses
                    (with_age (Some 30%Z)) (with_age (Some 45%Z))
                    ltac:(cbn; lia))).
  - apply (proj2 (calculate_eq_scores_age quiet_model sample_analyses
                    (with_age (Some 60%Z)) (with_age (Some 95%Z))
                    ltac:(cbn; lia))).
    cbn. lia.
Defined.

Lemma sentiment_summary_shares_witness :
  py_sum (Dict.values (sentiment_summary sample_analyses)) == 100
  /\ sentiment_summary [] = default_sentiment_percent.
Proof.
  split.
  - apply (proj1 (proj2 (sentiment_summary_shares sample_analyses))).
    reflexivity.
  - apply (proj2 (proj2 (sentiment_summary_shares []))).
    discriminate.
Defined.

Lemma emotion_summary_shares_witness :
  py_sum (Dict.values (emotion_summary sample_analyses)) == 100
  /\ Dict.get "fear" (emotion_summary sample_analyses)
     = Some (ratio_of (normalize (aggregate sample_analyses)) "fear" * 100)
  /\ emotion_summary silent_analyses = [].
Proof.
  destruct (emotion_summary_shares sample_analyses) as (_ & P & _).
  destruct (P ltac:(reflexivity)) as (_ & S & G).
  split; [exact S|]. split.
  - apply G. vm_compute. tauto.
  - apply (proj2 (proj2 (emotion_summary_shares silent_analyses))).
    discriminate.
Defined.

Lemma response_view_post_rejects_witness :
  (exists message,
      response_view_post (fun _ => None) (fun _ => "value"%string) sample_model
        (generate_questions sample_model teacher_scenario) None partial_post
      = Returns (RenderError (Some message)))
  /\ exists message,
      response_view_post (fun _ => None) (fun _ => "value"%string) sample_model
        (generate_questions sample_model teacher_scenario) None
        (Dict.set "answer_1" sample_answer partial_post)
      = Returns (RenderError (Some message)).
Proof.
  split.
  - apply (response_view_post_rejects _ _ _ _ _ _ 1%nat).
    + cbn. lia.
    + vm_compute. reflexivity.
  - apply (response_view_post_rejects _ _ _ _ _ _ 4%nat).
    + cbn. lia.
    + vm_compute. reflexivity.
Defined.

Lemma response_view_post_stores_witness :
  exists stored,
    response_view_post (fun _ => None) (fun _ => "value"%string) sample_model
      (generate_questions sample_model teacher_scenario) None sample_post
    = Returns (RedirectResult stored)
    /\ in_range (result_overall_score stored)
    /\ descending (result_emotion_percent stored).
Proof.
  eexists. split; [vm_compute; reflexivity|].
  match goal with
  | |- in_range (result_overall_score ?x) /\ _ =>
      destruct (response_view_post_stores
                  (fun _ => None) (fun _ => "value"%string) sample_model
                  (generate_questions sample_model teacher_scenario) None
                  sample_post x)
        as (_ & _ & _ & _ & R & _ & _ & D)
  end.
  - vm_compute. reflexivity.
  - split; [exact R | exact D].
Defined.

End Samples.
